(** * User administration action layer

    A shallow embedding of [src/app/actions/user-management-actions.ts].

    Every action of the file is an [async] function that builds a Supabase
    client, awaits one or more calls against the external service, branches on
    the [error] member of the reply and returns an [ActionResult]; the whole
    body sits in a [try]/[catch].  The embedding keeps that shape:

    - an action is a program tree ([Prog]) whose nodes are the awaited calls
      and the console writes, in source order;
    - the external service is any state machine ([Service]) that answers a
      call by resolving with a reply or by rejecting with an [Error];
    - [run] executes a program against a service and yields how the action
      completed, the trace of everything it did, and the service's state. *)

From Stdlib Require Import String Ascii List Bool Arith Lia DecimalString.
Import ListNotations.
Open Scope string_scope.

(** ** Data model *)

(** [interface ActionResult { success; message; error? }].  An optional member
    that the object literal leaves out is [None]. *)
Record ActionResult : Type := {
  success : bool;
  message : string;
  error : option string
}.

(** The role argument of [inviteUser] and [updateUserAppMetadata]:
    ['client' | 'admin']. *)
Inductive Role : Type := client | admin.

Definition role_text (r : Role) : string :=
  match r with
  | client => "client"
  | admin => "admin"
  end.

(** Error objects.  The service reports an [AuthError] or a [PostgrestError]
    in the [error] member of its reply, and what a rejected promise throws is
    an [Error] instance; the actions read nothing but [.message] off any of
    them. *)
Module Err.
Record t : Type := { message : string }.
End Err.

(** A row of [from('profiles').select('id, role')]. *)
Module ProfileRow.
Record t : Type := { id : string; role : string }.
End ProfileRow.

(** What an awaited call resolves to: [{ data, error }].  Only the profile
    query's [data] is ever inspected, so [data] is a row set or [null]. *)
Module Reply.
Record t : Type := {
  data : option (list ProfileRow.t);
  error : option Err.t
}.
End Reply.

(** The handle [createClient] resolves to; the actions only call through it. *)
Record Client : Type := { serviceRole : bool }.

(** ** Requests sent to the external service *)

(** Second argument of [auth.admin.updateUserById]. *)
Inductive UserAttributes : Type :=
| AttrEmail (email : string)
| AttrAppMetadata (role : string).

(** Second argument of [auth.admin.inviteUserByEmail]:
    [{ data: { role }, app_metadata: { role }, redirectTo }]. *)
Record InviteOptions : Type := {
  data_role : string;
  app_metadata_role : string;
  redirectTo : string
}.

(** [options] of [auth.signInWithOtp]. *)
Record OtpOptions : Type := {
  shouldCreateUser : bool;
  emailRedirectTo : string
}.

Inductive Call : Type :=
| auth_admin_updateUserById (userId : string) (attrs : UserAttributes)
| auth_admin_inviteUserByEmail (email : string) (options : InviteOptions)
| auth_admin_deleteUser (userId : string)
| auth_resetPasswordForEmail (email : string) (redirect : string)
| auth_signInWithOtp (email : string) (options : OtpOptions)
| profiles_update_email_eq_id (email : string) (userId : string)
| profiles_select_id_role.

(** [console.error(label, errorObject)] and [console.warn(text)]. *)
Inductive LogEntry : Type :=
| console_error (label : string) (detail : Err.t)
| console_warn (text : string).

(** ** Programs *)

(** An awaited promise either resolves or rejects. *)
Inductive Outcome (X : Type) : Type :=
| Resolved (x : X)
| Rejected (e : Err.t).
Arguments Resolved {X} x.
Arguments Rejected {X} e.

Inductive Prog (A : Type) : Type :=
| Ret (a : A)
| Throw (e : Err.t)
| CreateClient (useServiceRole : bool) (k : Outcome Client -> Prog A)
| Invoke (c : Call) (k : Outcome Reply.t -> Prog A)
| Console (l : LogEntry) (k : Prog A).
Arguments Ret {A} a.
Arguments Throw {A} e.
Arguments CreateClient {A} useServiceRole k.
Arguments Invoke {A} c k.
Arguments Console {A} l k.

Fixpoint bind {A B : Type} (p : Prog A) (f : A -> Prog B) : Prog B :=
  match p with
  | Ret a => f a
  | Throw e => Throw e
  | CreateClient b k => CreateClient b (fun o => bind (k o) f)
  | Invoke c k => Invoke c (fun o => bind (k o) f)
  | Console l k => Console l (bind k f)
  end.

(** [try { p } catch (e) { h e }]. *)
Fixpoint try_catch {A : Type} (p : Prog A) (h : Err.t -> Prog A) : Prog A :=
  match p with
  | Ret a => Ret a
  | Throw e => h e
  | CreateClient b k => CreateClient b (fun o => try_catch (k o) h)
  | Invoke c k => Invoke c (fun o => try_catch (k o) h)
  | Console l k => Console l (try_catch k h)
  end.

Declare Scope prog_scope.
Delimit Scope prog_scope with prog.
Notation "x <- p ;; q" := (bind p (fun x => q))
  (at level 61, p at next level, right associativity) : prog_scope.
Notation "p ;; q" := (bind p (fun _ => q))
  (at level 61, right associativity) : prog_scope.
Open Scope prog_scope.

(** [await e]: the value the promise resolves to, or a throw of what it
    rejects with. *)
Definition settle {X : Type} (o : Outcome X) : Prog X :=
  match o with
  | Resolved x => Ret x
  | Rejected e => Throw e
  end.

Definition createClient (useServiceRole : bool) : Prog Client :=
  CreateClient useServiceRole settle.

Definition await (c : Call) : Prog Reply.t :=
  Invoke c settle.

Definition log (l : LogEntry) : Prog unit :=
  Console l (Ret tt).

(** [for (const x of xs) { st = body st x }], the loop variables threaded
    through as [st]. *)
Fixpoint for_of {A S : Type} (xs : list A) (body : S -> A -> Prog S) (st : S)
  : Prog S :=
  match xs with
  | [] => Ret st
  | x :: rest => st' <- body st x ;; for_of rest body st'
  end.

(** A number interpolated into a template literal (a count, so a natural
    number, printed in decimal). *)
Definition Number_toString (n : nat) : string :=
  NilEmpty.string_of_uint (Nat.to_uint n).

(** ** The actions *)

Section Actions.

(** [process.env.NEXT_PUBLIC_SITE_URL], [None] when unset. *)
Variable NEXT_PUBLIC_SITE_URL : option string.

(** [process.env.NEXT_PUBLIC_SITE_URL || 'http://localhost:3000']: an unset
    or empty variable is falsy. *)
Definition siteUrl : string :=
  match NEXT_PUBLIC_SITE_URL with
  | Some url => if String.eqb url "" then "http://localhost:3000" else url
  | None => "http://localhost:3000"
  end.

Definition changeUserEmail (userId newEmail : string) : Prog ActionResult :=
  try_catch
    (supabase <- createClient true ;;
     reply <- await (auth_admin_updateUserById userId (AttrEmail newEmail)) ;;
     match Reply.error reply with
     | Some err =>
         log (console_error "Error changing user email:" err) ;;
         Ret {| success := false;
                message := "Failed to change user email";
                error := Some (Err.message err) |}
     | None =>
         profileReply <- await (profiles_update_email_eq_id newEmail userId) ;;
         match Reply.error profileReply with
         | Some profileError =>
             log (console_error "Error updating profile email:" profileError) ;;
             log (console_warn
               "Profile email update failed, but auth email was updated successfully")
         | None => Ret tt
         end ;;
         Ret {| success := true;
                message := "Email successfully changed to " ++ newEmail
                           ++ ". User will receive a confirmation email.";
                error := None |}
     end)
    (fun err =>
       log (console_error "Unexpected error in changeUserEmail:" err) ;;
       Ret {| success := false;
              message := "An unexpected error occurred while changing the email";
              error := Some (Err.message err) |}).

Definition sendPasswordReset (email : string) : Prog ActionResult :=
  try_catch
    (supabase <- createClient true ;;
     reply <- await (auth_resetPasswordForEmail email
                       (siteUrl ++ "/auth/reset-password")) ;;
     match Reply.error reply with
     | Some err =>
         log (console_error "Error sending password reset:" err) ;;
         Ret {| success := false;
                message := "Failed to send password reset email";
                error := Some (Err.message err) |}
     | None =>
         Ret {| success := true;
                message := "Password reset link has been sent to " ++ email;
                error := None |}
     end)
    (fun err =>
       log (console_error "Unexpected error in sendPasswordReset:" err) ;;
       Ret {| success := false;
              message := "An unexpected error occurred while sending password reset";
              error := Some (Err.message err) |}).

Definition requestReauthentication (email : string) : Prog ActionResult :=
  try_catch
    (supabase <- createClient true ;;
     reply <- await (auth_signInWithOtp email
                       {| shouldCreateUser := false;
                          emailRedirectTo := siteUrl ++ "/dashboard" |}) ;;
     match Reply.error reply with
     | Some err =>
         log (console_error "Error sending reauthentication request:" err) ;;
         Ret {| success := false;
                message := "Failed to send reauthentication link";
                error := Some (Err.message err) |}
     | None =>
         Ret {| success := true;
                message := "Reauthentication link has been sent to " ++ email;
                error := None |}
     end)
    (fun err =>
       log (console_error "Unexpected error in requestReauthentication:" err) ;;
       Ret {| success := false;
              message :=
                "An unexpected error occurred while sending reauthentication request";
              error := Some (Err.message err) |}).

(** [role: 'client' | 'admin' = 'client']: an omitted argument is [None]. *)
Definition inviteUser (email : string) (role_arg : option Role)
  : Prog ActionResult :=
  let role := match role_arg with Some r => r | None => client end in
  try_catch
    (supabase <- createClient true ;;
     reply <- await (auth_admin_inviteUserByEmail email
                       {| data_role := role_text role;
                          app_metadata_role := role_text role;
                          redirectTo := siteUrl ++ "/auth/callback" |}) ;;
     match Reply.error reply with
     | Some err =>
         log (console_error "Error inviting user:" err) ;;
         Ret {| success := false;
                message := "Failed to send invitation";
                error := Some (Err.message err) |}
     | None =>
         Ret {| success := true;
                message := "Invitation sent successfully to " ++ email;
                error := None |}
     end)
    (fun err =>
       log (console_error "Unexpected error in inviteUser:" err) ;;
       Ret {| success := false;
              message := "An unexpected error occurred while sending invitation";
              error := Some (Err.message err) |}).

Definition sendMagicLink (email : string) : Prog ActionResult :=
  try_catch
    (supabase <- createClient true ;;
     reply <- await (auth_signInWithOtp email
                       {| shouldCreateUser := true;
                          emailRedirectTo := siteUrl ++ "/dashboard" |}) ;;
     match Reply.error reply with
     | Some err =>
         log (console_error "Error sending magic link:" err) ;;
         Ret {| success := false;
                message := "Failed to send magic link";
                error := Some (Err.message err) |}
     | None =>
         Ret {| success := true;
                message := "Magic link has been sent to " ++ email;
                error := None |}
     end)
    (fun err =>
       log (console_error "Unexpected error in sendMagicLink:" err) ;;
       Ret {| success := false;
              message := "An unexpected error occurred while sending magic link";
              error := Some (Err.message err) |}).

Definition deleteUser (userId : string) : Prog ActionResult :=
  try_catch
    (supabase <- createClient true ;;
     reply <- await (auth_admin_deleteUser userId) ;;
     match Reply.error reply with
     | Some err =>
         log (console_error "Error deleting user:" err) ;;
         Ret {| success := false;
                message := "Failed to delete user account";
                error := Some (Err.message err) |}
     | None =>
         Ret {| success := true;
                message := "User account has been successfully deleted";
                error := None |}
     end)
    (fun err =>
       log (console_error "Unexpected error in deleteUser:" err) ;;
       Ret {| success := false;
              message := "An unexpected error occurred while deleting user";
              error := Some (Err.message err) |}).

Definition updateUserAppMetadata (userId : string) (role : Role)
  : Prog ActionResult :=
  try_catch
    (supabase <- createClient true ;;
     reply <- await (auth_admin_updateUserById userId
                       (AttrAppMetadata (role_text role))) ;;
     match Reply.error reply with
     | Some err =>
         log (console_error "Error updating user app_metadata:" err) ;;
         Ret {| success := false;
                message := "Failed to update user app_metadata";
                error := Some (Err.message err) |}
     | None =>
         Ret {| success := true;
                message := "User app_metadata successfully updated with role: "
                           ++ role_text role;
                error := None |}
     end)
    (fun err =>
       log (console_error "Unexpected error in updateUserAppMetadata:" err) ;;
       Ret {| success := false;
              message :=
                "An unexpected error occurred while updating user app_metadata";
              error := Some (Err.message err) |}).

(** The loop variables of [syncAllUsersAppMetadata]. *)
Record SyncCounters : Type := {
  successCount : nat;
  errorCount : nat;
  errors : list string
}.

(** One turn of [for (const profile of profiles)]: the inner
    [try]/[catch] around the metadata update. *)
Definition sync_profile (st : SyncCounters) (profile : ProfileRow.t)
  : Prog SyncCounters :=
  try_catch
    (reply <- await (auth_admin_updateUserById (ProfileRow.id profile)
                       (AttrAppMetadata (ProfileRow.role profile))) ;;
     match Reply.error reply with
     | Some err =>
         Ret {| successCount := successCount st;
                errorCount := S (errorCount st);
                errors := errors st ++
                  ["Error updating user " ++ ProfileRow.id profile ++ ": "
                   ++ Err.message err] |}
     | None =>
         Ret {| successCount := S (successCount st);
                errorCount := errorCount st;
                errors := errors st |}
     end)
    (fun err =>
       Ret {| successCount := successCount st;
              errorCount := S (errorCount st);
              errors := errors st ++
                ["Exception updating user " ++ ProfileRow.id profile ++ ": "
                 ++ Err.message err] |}).

Definition syncAllUsersAppMetadata : Prog ActionResult :=
  try_catch
    (supabase <- createClient true ;;
     reply <- await profiles_select_id_role ;;
     match Reply.error reply with
     | Some profilesError =>
         log (console_error "Error fetching profiles:" profilesError) ;;
         Ret {| success := false;
                message := "Failed to fetch profiles";
                error := Some (Err.message profilesError) |}
     | None =>
         match Reply.data reply with
         | None | Some [] =>
             Ret {| success := true;
                    message := "No profiles found to sync";
                    error := None |}
         | Some profiles =>
             st <- for_of profiles sync_profile
                     {| successCount := 0; errorCount := 0; errors := [] |} ;;
             Ret {| success := true;
                    message := "Synced app_metadata for "
                               ++ Number_toString (successCount st)
                               ++ " users. "
                               ++ Number_toString (errorCount st)
                               ++ " errors.";
                    error := None |}
         end
     end)
    (fun err =>
       log (console_error "Unexpected error in syncAllUsersAppMetadata:" err) ;;
       Ret {| success := false;
              message :=
                "An unexpected error occurred while syncing user app_metadata";
              error := Some (Err.message err) |}).

End Actions.


(** The exported actions, with their arguments. *)
Inductive Action : Type :=
| ChangeUserEmail (userId newEmail : string)
| SendPasswordReset (email : string)
| RequestReauthentication (email : string)
| InviteUser (email : string) (role_arg : option Role)
| SendMagicLink (email : string)
| DeleteUser (userId : string)
| UpdateUserAppMetadata (userId : string) (role : Role)
| SyncAllUsersAppMetadata.

Definition perform (env : option string) (a : Action) : Prog ActionResult :=
  match a with
  | ChangeUserEmail userId newEmail => changeUserEmail userId newEmail
  | SendPasswordReset email => sendPasswordReset env email
  | RequestReauthentication email => requestReauthentication env email
  | InviteUser email role_arg => inviteUser env email role_arg
  | SendMagicLink email => sendMagicLink env email
  | DeleteUser userId => deleteUser userId
  | UpdateUserAppMetadata userId role => updateUserAppMetadata userId role
  | SyncAllUsersAppMetadata => syncAllUsersAppMetadata
  end.

(** ** The external service and execution *)

(** The service is any state machine: from its current state it answers the
    construction of a client and every call, by resolving or by rejecting, and
    moves to a next state. *)
Record Service (St : Type) : Type := {
  connect : St -> bool -> Outcome Client * St;
  respond : St -> Call -> Outcome Reply.t * St
}.
Arguments connect {St} _ _ _.
Arguments respond {St} _ _ _.

Inductive Event : Type :=
| Connected (useServiceRole : bool) (o : Outcome Client)
| Called (c : Call) (o : Outcome Reply.t)
| Logged (l : LogEntry).

(** How an [async] function settles: its promise resolves with the returned
    value or rejects with the uncaught exception. *)
Inductive Completion (A : Type) : Type :=
| Returns (a : A)
| Raises (e : Err.t).
Arguments Returns {A} a.
Arguments Raises {A} e.

Record Execution (A St : Type) : Type := {
  completion : Completion A;
  trace : list Event;
  final : St
}.
Arguments completion {A St} _.
Arguments trace {A St} _.
Arguments final {A St} _.

Definition after {A St : Type} (ev : Event) (x : Execution A St)
  : Execution A St :=
  {| completion := completion x; trace := ev :: trace x; final := final x |}.

Fixpoint run {St A : Type} (svc : Service St) (p : Prog A) (s : St)
  : Execution A St :=
  match p with
  | Ret a => {| completion := Returns a; trace := []; final := s |}
  | Throw e => {| completion := Raises e; trace := []; final := s |}
  | CreateClient b k =>
      let (o, s1) := connect svc s b in
      after (Connected b o) (run svc (k o) s1)
  | Invoke c k =>
      let (o, s1) := respond svc s c in
      after (Called c o) (run svc (k o) s1)
  | Console l k => after (Logged l) (run svc k s)
  end.

(** The calls of a trace, in the order they were issued. *)
Fixpoint calls (tr : list Event) : list Call :=
  match tr with
  | [] => []
  | Called c _ :: rest => c :: calls rest
  | _ :: rest => calls rest
  end.

(** The last exchange with the service in a trace (console writes skipped). *)
Fixpoint last_exchange (tr : list Event) : option Event :=
  match tr with
  | [] => None
  | Logged _ :: rest => last_exchange rest
  | ev :: rest =>
      match last_exchange rest with
      | Some ev' => Some ev'
      | None => Some ev
      end
  end.

(** The diagnostic text an exchange carries: the message of the error the
    reply reports, or of the exception the call rejected with. *)
Definition diagnostic (ev : Event) : option string :=
  match ev with
  | Connected _ (Rejected e) => Some (Err.message e)
  | Called _ (Rejected e) => Some (Err.message e)
  | Called _ (Resolved reply) => option_map Err.message (Reply.error reply)
  | _ => None
  end.

(** A per-user update has failed when its reply reports an error or the call
    rejects. *)
Definition failed (o : Outcome Reply.t) : bool :=
  match o with
  | Resolved reply =>
      match Reply.error reply with Some _ => true | None => false end
  | Rejected _ => true
  end.


(** ** Vocabulary of the properties *)

(** The first call an action awaits once its client is built: the call whose
    reported error decides the result. *)
Definition primary (env : option string) (a : Action) : Call :=
  match a with
  | ChangeUserEmail userId newEmail =>
      auth_admin_updateUserById userId (AttrEmail newEmail)
  | SendPasswordReset email =>
      auth_resetPasswordForEmail email (siteUrl env ++ "/auth/reset-password")
  | RequestReauthentication email =>
      auth_signInWithOtp email
        {| shouldCreateUser := false;
           emailRedirectTo := siteUrl env ++ "/dashboard" |}
  | InviteUser email role_arg =>
      let role := match role_arg with Some r => r | None => client end in
      auth_admin_inviteUserByEmail email
        {| data_role := role_text role;
           app_metadata_role := role_text role;
           redirectTo := siteUrl env ++ "/auth/callback" |}
  | SendMagicLink email =>
      auth_signInWithOtp email
        {| shouldCreateUser := true;
           emailRedirectTo := siteUrl env ++ "/dashboard" |}
  | DeleteUser userId => auth_admin_deleteUser userId
  | UpdateUserAppMetadata userId role =>
      auth_admin_updateUserById userId (AttrAppMetadata (role_text role))
  | SyncAllUsersAppMetadata => profiles_select_id_role
  end.

(** The first call in a program tree, client construction taken to resolve;
    [primary] is checked against it below. *)
Fixpoint first_call {A : Type} (p : Prog A) : option Call :=
  match p with
  | Invoke c _ => Some c
  | CreateClient b k => first_call (k (Resolved {| serviceRole := b |}))
  | Console _ k => first_call k
  | Ret _ | Throw _ => None
  end.

(** The best-effort second write, which only [changeUserEmail] has. *)
Definition secondary (a : Action) : option Call :=
  match a with
  | ChangeUserEmail userId newEmail =>
      Some (profiles_update_email_eq_id newEmail userId)
  | _ => None
  end.

(** The fixed message of each action's outer [catch] block. *)
Definition unexpected_message (a : Action) : string :=
  match a with
  | ChangeUserEmail _ _ =>
      "An unexpected error occurred while changing the email"
  | SendPasswordReset _ =>
      "An unexpected error occurred while sending password reset"
  | RequestReauthentication _ =>
      "An unexpected error occurred while sending reauthentication request"
  | InviteUser _ _ =>
      "An unexpected error occurred while sending invitation"
  | SendMagicLink _ =>
      "An unexpected error occurred while sending magic link"
  | DeleteUser _ =>
      "An unexpected error occurred while deleting user"
  | UpdateUserAppMetadata _ _ =>
      "An unexpected error occurred while updating user app_metadata"
  | SyncAllUsersAppMetadata =>
      "An unexpected error occurred while syncing user app_metadata"
  end.

(** The exception an event throws into the action's outer [try] block: what a
    rejected client construction or a rejected call throws, except for the
    per-user update of [syncAllUsersAppMetadata], which sits inside the loop's
    own [try]/[catch]. *)
Definition escapes (a : Action) (ev : Event) : option Err.t :=
  match ev with
  | Connected _ (Rejected e) => Some e
  | Called c (Rejected e) =>
      match a, c with
      | SyncAllUsersAppMetadata, auth_admin_updateUserById _ _ => None
      | _, _ => Some e
      end
  | _ => None
  end.

(** The exception any event throws, wherever it is caught. *)
Definition thrown (ev : Event) : option Err.t :=
  match ev with
  | Connected _ (Rejected e) => Some e
  | Called _ (Rejected e) => Some e
  | _ => None
  end.

(** The metadata update the sync loop issues for a profile row. *)
Definition metadata_update (profile : ProfileRow.t) : Call :=
  auth_admin_updateUserById (ProfileRow.id profile)
    (AttrAppMetadata (ProfileRow.role profile)).

(** The number of [updateUserById] calls in a trace that failed
    ([wanted = true]) or went through ([wanted = false]). *)
Fixpoint count_updates (wanted : bool) (tr : list Event) : nat :=
  match tr with
  | [] => 0
  | Called (auth_admin_updateUserById _ _) o :: rest =>
      (if Bool.eqb (failed o) wanted then 1 else 0) + count_updates wanted rest
  | _ :: rest => count_updates wanted rest
  end.

(** The five texts in which the two one-time-passcode actions differ. *)
Record OtpWording : Type := {
  reported_label : string;
  reported_message : string;
  sent_prefix : string;
  caught_label : string;
  caught_message : string
}.

(** The one-time-passcode action that both [requestReauthentication] and
    [sendMagicLink] are said to be, up to the create-user flag: written once,
    with the flag and the wording as parameters. *)
Definition otp_flow (env : option string) (createUser : bool)
  (w : OtpWording) (email : string) : Prog ActionResult :=
  try_catch
    (supabase <- createClient true ;;
     reply <- await (auth_signInWithOtp email
                       {| shouldCreateUser := createUser;
                          emailRedirectTo := siteUrl env ++ "/dashboard" |}) ;;
     match Reply.error reply with
     | Some err =>
         log (console_error (reported_label w) err) ;;
         Ret {| success := false;
                message := reported_message w;
                error := Some (Err.message err) |}
     | None =>
         Ret {| success := true;
                message := sent_prefix w ++ email;
                error := None |}
     end)
    (fun err =>
       log (console_error (caught_label w) err) ;;
       Ret {| success := false;
              message := caught_message w;
              error := Some (Err.message err) |}).

Definition reauthentication_wording : OtpWording :=
  {| reported_label := "Error sending reauthentication request:";
     reported_message := "Failed to send reauthentication link";
     sent_prefix := "Reauthentication link has been sent to ";
     caught_label := "Unexpected error in requestReauthentication:";
     caught_message :=
       "An unexpected error occurred while sending reauthentication request" |}.

Definition magic_link_wording : OtpWording :=
  {| reported_label := "Error sending magic link:";
     reported_message := "Failed to send magic link";
     sent_prefix := "Magic link has been sent to ";
     caught_label := "Unexpected error in sendMagicLink:";
     caught_message := "An unexpected error occurred while sending magic link" |}.

(** Sequencing of executions: what [run] does on [bind] and on [try_catch]. *)
Definition and_then {A B St : Type} (x : Execution A St)
  (f : A -> St -> Execution B St) : Execution B St :=
  match completion x with
  | Returns a =>
      let y := f a (final x) in
      {| completion := completion y;
         trace := trace x ++ trace y;
         final := final y |}
  | Raises e =>
      {| completion := Raises e; trace := trace x; final := final x |}
  end.

Definition or_else {A St : Type} (x : Execution A St)
  (h : Err.t -> St -> Execution A St) : Execution A St :=
  match completion x with
  | Returns a => x
  | Raises e =>
      let y := h e (final x) in
      {| completion := completion y;
         trace := trace x ++ trace y;
         final := final y |}
  end.

(** ** Sample services and data *)

Definition ok_reply : Reply.t :=
  {| Reply.data := None; Reply.error := None |}.

Definition error_reply (text : string) : Reply.t :=
  {| Reply.data := None; Reply.error := Some {| Err.message := text |} |}.

Definition rows_reply (rows : list ProfileRow.t) : Reply.t :=
  {| Reply.data := Some rows; Reply.error := None |}.

(** A service that hands out its replies from a script, one per call whatever
    the call is, and resolves with an empty reply once the script is used up.
    [conn] is how it settles [createClient]. *)
Definition scripted (conn : Outcome Client) : Service (list (Outcome Reply.t)) :=
  {| connect := fun s _ => (conn, s);
     respond := fun s _ =>
       match s with
       | o :: rest => (o, rest)
       | [] => (Resolved ok_reply, [])
       end |}.

Definition a_client : Client := {| serviceRole := true |}.

Definition answering : Service (list (Outcome Reply.t)) :=
  scripted (Resolved a_client).

Definition no_service_key : Err.t :=
  {| Err.message := "Missing service role key" |}.

Definition refusing : Service (list (Outcome Reply.t)) :=
  scripted (Rejected no_service_key).

Definition fetch_failed : Err.t := {| Err.message := "fetch failed" |}.

Definition row_a : ProfileRow.t :=
  {| ProfileRow.id := "a"; ProfileRow.role := "admin" |}.

Definition row_b : ProfileRow.t :=
  {| ProfileRow.id := "b"; ProfileRow.role := "client" |}.

(** Scripts for [answering]: the replies to the calls of one run, in order. *)
Definition mirror_error_script : list (Outcome Reply.t) :=
  [Resolved ok_reply;
   Resolved (error_reply "permission denied for table profiles")].

Definition read_error_script : list (Outcome Reply.t) :=
  [Resolved (error_reply "permission denied for table profiles")].

Definition no_rows_script : list (Outcome Reply.t) :=
  [Resolved (rows_reply [])].

Definition partial_sync_script : list (Outcome Reply.t) :=
  [Resolved (rows_reply [row_a; row_b]);
   Resolved (error_reply "User not found");
   Resolved ok_reply].

Definition thrown_update_script : list (Outcome Reply.t) :=
  [Resolved (rows_reply [row_a]); Rejected fetch_failed].


(** ** Further vocabulary *)

(** The console entries of a trace, in the order they were written. *)
Fixpoint logs (tr : list Event) : list LogEntry :=
  match tr with
  | [] => []
  | Logged l :: rest => l :: logs rest
  | _ :: rest => logs rest
  end.

(** The calls an action goes on to issue after its primary call has been
    answered with [reply]. *)
Definition follow_ups (a : Action) (reply : Reply.t) : list Call :=
  match Reply.error reply with
  | Some _ => []
  | None =>
      match a with
      | ChangeUserEmail userId newEmail =>
          [profiles_update_email_eq_id newEmail userId]
      | SyncAllUsersAppMetadata =>
          match Reply.data reply with
          | Some rows => map metadata_update rows
          | None => []
          end
      | _ => []
      end
  end.

(** The requests that ask the identity provider to create an identity. *)
Definition creates_identity (c : Call) : bool :=
  match c with
  | auth_admin_inviteUserByEmail _ _ => true
  | auth_signInWithOtp _ options => shouldCreateUser options
  | _ => false
  end.

(** What the redirect target of a request has to be for the site URL
    [base]: each kind of request that carries one has its own path. *)
Definition redirects_to (base : string) (c : Call) : Prop :=
  match c with
  | auth_resetPasswordForEmail _ redirect =>
      redirect = base ++ "/auth/reset-password"
  | auth_signInWithOtp _ options =>
      emailRedirectTo options = base ++ "/dashboard"
  | auth_admin_inviteUserByEmail _ options =>
      redirectTo options = base ++ "/auth/callback"
  | _ => True
  end.

(** The error a profile mirror write of the trace reported, if one did. *)
Fixpoint reported_mirror_error (tr : list Event) : option Err.t :=
  match tr with
  | [] => None
  | Called (profiles_update_email_eq_id _ _) (Resolved reply) :: rest =>
      match Reply.error reply with
      | Some profileError => Some profileError
      | None => reported_mirror_error rest
      end
  | _ :: rest => reported_mirror_error rest
  end.

(** The error object an exchange ends in: the one its reply reports or the
    one it rejects with. *)
Definition fault (ev : Event) : option Err.t :=
  match ev with
  | Connected _ (Rejected e) => Some e
  | Called _ (Rejected e) => Some e
  | Called _ (Resolved reply) => Reply.error reply
  | _ => None
  end.

(** The line each failed [updateUserById] of a trace stands for in the sync
    loop's error list. *)
Fixpoint failure_lines (tr : list Event) : list string :=
  match tr with
  | [] => []
  | Called (auth_admin_updateUserById userId _) (Resolved reply) :: rest =>
      match Reply.error reply with
      | Some err =>
          ("Error updating user " ++ userId ++ ": " ++ Err.message err)
          :: failure_lines rest
      | None => failure_lines rest
      end
  | Called (auth_admin_updateUserById userId _) (Rejected e) :: rest =>
      ("Exception updating user " ++ userId ++ ": " ++ Err.message e)
      :: failure_lines rest
  | _ :: rest => failure_lines rest
  end.

(** The fixed message of each action's reported-error branch. *)
Definition failure_message (a : Action) : string :=
  match a with
  | ChangeUserEmail _ _ => "Failed to change user email"
  | SendPasswordReset _ => "Failed to send password reset email"
  | RequestReauthentication _ => "Failed to send reauthentication link"
  | InviteUser _ _ => "Failed to send invitation"
  | SendMagicLink _ => "Failed to send magic link"
  | DeleteUser _ => "Failed to delete user account"
  | UpdateUserAppMetadata _ _ => "Failed to update user app_metadata"
  | SyncAllUsersAppMetadata => "Failed to fetch profiles"
  end.

Definition mirror_throw_script : list (Outcome Reply.t) :=
  [Resolved ok_reply; Rejected fetch_failed].

Definition full_sync_script : list (Outcome Reply.t) :=
  [Resolved (rows_reply [row_a; row_b]); Resolved ok_reply; Resolved ok_reply].

Definition user_not_found_script : list (Outcome Reply.t) :=
  [Resolved (error_reply "User not found")].

(** ** Execution lemmas *)

(** Case split on the next answer of the service, or on the error member of a
    reply that the program branches on. *)
Ltac split_service svc :=
  match goal with
  | |- context [connect svc ?s ?b] =>
      destruct (connect svc s b) as [[?cl|?e] ?s] eqn:?Hconnect
  | |- context [respond svc ?s ?c] =>
      destruct (respond svc s c) as [[?reply|?e] ?s] eqn:?Hrespond
  | |- context [match Reply.error ?r with _ => _ end] =>
      destruct (Reply.error r) as [?err|] eqn:?Herror
  end.

Ltac execute svc := repeat (cbn; try split_service svc).

Section Execution.

Context {St : Type} (svc : Service St).

Lemma run_CreateClient {A} b (k : Outcome Client -> Prog A) s o s1 :
  connect svc s b = (o, s1) ->
  run svc (CreateClient b k) s = after (Connected b o) (run svc (k o) s1).
Proof. intros H. cbn [run]. rewrite H. reflexivity. Qed.

Lemma run_Invoke {A} c (k : Outcome Reply.t -> Prog A) s o s1 :
  respond svc s c = (o, s1) ->
  run svc (Invoke c k) s = after (Called c o) (run svc (k o) s1).
Proof. intros H. cbn [run]. rewrite H. reflexivity. Qed.

Lemma and_then_after {A B} ev (x : Execution A St)
  (f : A -> St -> Execution B St) :
  and_then (after ev x) f = after ev (and_then x f).
Proof. unfold and_then, after; cbn. destruct (completion x); reflexivity. Qed.

Lemma or_else_after {A} ev (x : Execution A St)
  (h : Err.t -> St -> Execution A St) :
  or_else (after ev x) h = after ev (or_else x h).
Proof.
  unfold or_else, after; cbn. destruct x as [[a|e] tr s']; reflexivity.
Qed.

Lemma run_bind {A B} (p : Prog A) (f : A -> Prog B) s :
  run svc (bind p f) s = and_then (run svc p s) (fun a s' => run svc (f a) s').
Proof.
  revert s; induction p as [a|e|b k IH|c k IH|l k IH]; intros s; cbn [bind run].
  - unfold and_then; cbn. destruct (run svc (f a) s); reflexivity.
  - reflexivity.
  - destruct (connect svc s b) as [o s1]. rewrite IH, and_then_after.
    reflexivity.
  - destruct (respond svc s c) as [o s1]. rewrite IH, and_then_after.
    reflexivity.
  - rewrite IH, and_then_after. reflexivity.
Qed.

Lemma run_try_catch {A} (p : Prog A) (h : Err.t -> Prog A) s :
  run svc (try_catch p h) s =
  or_else (run svc p s) (fun e s' => run svc (h e) s').
Proof.
  revert s; induction p as [a|e|b k IH|c k IH|l k IH]; intros s;
    cbn [try_catch run].
  - reflexivity.
  - unfold or_else; cbn. destruct (run svc (h e) s); reflexivity.
  - destruct (connect svc s b) as [o s1]. rewrite IH, or_else_after.
    reflexivity.
  - destruct (respond svc s c) as [o s1]. rewrite IH, or_else_after.
    reflexivity.
  - rewrite IH, or_else_after. reflexivity.
Qed.

(** [primary] is the first call of the action's program. *)
Lemma primary_is_first_call env a :
  first_call (perform env a) = Some (primary env a).
Proof. destruct a; reflexivity. Qed.

(** *** The sync loop *)

Lemma count_updates_cons wanted profile o rest :
  count_updates wanted (Called (metadata_update profile) o :: rest) =
  (if Bool.eqb (failed o) wanted then 1 else 0) + count_updates wanted rest.
Proof. reflexivity. Qed.

(** One turn of the loop issues one update and returns, whatever the answer. *)
Lemma run_sync_profile st profile s o s1 :
  respond svc s (metadata_update profile) = (o, s1) ->
  exists st1,
    run svc (sync_profile st profile) s =
      {| completion := Returns st1;
         trace := [Called (metadata_update profile) o];
         final := s1 |} /\
    successCount st1 = successCount st + (if failed o then 0 else 1) /\
    errorCount st1 = errorCount st + (if failed o then 1 else 0) /\
    length (errors st1) = length (errors st) + (if failed o then 1 else 0).
Proof.
  intros H. unfold sync_profile, await. cbn [bind try_catch].
  rewrite (run_Invoke _ _ _ _ _ H).
  destruct o as [reply|e]; cbn [settle bind try_catch failed].
  - destruct (Reply.error reply) as [err|]; cbn; eexists;
      (split; [reflexivity|]); cbn; rewrite ?length_app; cbn; lia.
  - cbn; eexists; (split; [reflexivity|]); cbn; rewrite ?length_app; cbn; lia.
Qed.

Lemma run_for_of_sync rows : forall st s,
  exists st',
    completion (run svc (for_of rows sync_profile st) s) = Returns st' /\
    calls (trace (run svc (for_of rows sync_profile st) s)) =
      map metadata_update rows /\
    successCount st' =
      successCount st
      + count_updates false (trace (run svc (for_of rows sync_profile st) s)) /\
    errorCount st' =
      errorCount st
      + count_updates true (trace (run svc (for_of rows sync_profile st) s)) /\
    length (errors st') =
      length (errors st)
      + count_updates true (trace (run svc (for_of rows sync_profile st) s)) /\
    count_updates false (trace (run svc (for_of rows sync_profile st) s))
    + count_updates true (trace (run svc (for_of rows sync_profile st) s))
    = length rows.
Proof.
  induction rows as [|profile rest IH]; intros st s.
  - exists st. cbn. repeat split; lia.
  - cbn [for_of]. rewrite run_bind.
    destruct (respond svc s (metadata_update profile)) as [o s1] eqn:Hr.
    destruct (run_sync_profile st profile s o s1 Hr)
      as (st1 & Hrun & Hs & He & Hl).
    rewrite Hrun. unfold and_then. cbn [completion final trace].
    destruct (IH st1 s1) as (st' & Hc & Hcalls & Hs' & He' & Hl' & Hsum).
    exists st'. cbn [app calls map]. rewrite !count_updates_cons, Hcalls.
    destruct (failed o); cbn [Bool.eqb length]; repeat split;
      try assumption; lia.
Qed.

Lemma sync_loop_trace rows : forall st s ev,
  In ev (trace (run svc (for_of rows sync_profile st) s)) ->
  exists profile o, ev = Called (metadata_update profile) o.
Proof.
  induction rows as [|profile rest IH]; intros st s ev.
  - cbn. tauto.
  - cbn [for_of]. rewrite run_bind.
    destruct (respond svc s (metadata_update profile)) as [o s1] eqn:Hr.
    destruct (run_sync_profile st profile s o s1 Hr) as (st1 & Hrun & _).
    rewrite Hrun. unfold and_then. cbn. intros [<- | Hin]; eauto.
Qed.

(** *** The five ways [syncAllUsersAppMetadata] can go *)

Lemma run_sync_connect_rejected s e s1 :
  connect svc s true = (Rejected e, s1) ->
  run svc syncAllUsersAppMetadata s =
    {| completion :=
         Returns {| success := false;
                    message :=
                      "An unexpected error occurred while syncing user app_metadata";
                    error := Some (Err.message e) |};
       trace := [Connected true (Rejected e);
                 Logged (console_error
                           "Unexpected error in syncAllUsersAppMetadata:" e)];
       final := s1 |}.
Proof.
  intros Hc. unfold syncAllUsersAppMetadata, createClient.
  cbn [bind try_catch]. rewrite (run_CreateClient _ _ _ _ _ Hc).
  reflexivity.
Qed.

Lemma run_sync_read_rejected s cl s1 e s2 :
  connect svc s true = (Resolved cl, s1) ->
  respond svc s1 profiles_select_id_role = (Rejected e, s2) ->
  run svc syncAllUsersAppMetadata s =
    {| completion :=
         Returns {| success := false;
                    message :=
                      "An unexpected error occurred while syncing user app_metadata";
                    error := Some (Err.message e) |};
       trace := [Connected true (Resolved cl);
                 Called profiles_select_id_role (Rejected e);
                 Logged (console_error
                           "Unexpected error in syncAllUsersAppMetadata:" e)];
       final := s2 |}.
Proof.
  intros Hc Hr. unfold syncAllUsersAppMetadata, createClient, await.
  cbn [bind try_catch]. rewrite (run_CreateClient _ _ _ _ _ Hc).
  cbn [settle bind try_catch]. rewrite (run_Invoke _ _ _ _ _ Hr).
  reflexivity.
Qed.

Lemma run_sync_read_error s cl s1 reply err s2 :
  connect svc s true = (Resolved cl, s1) ->
  respond svc s1 profiles_select_id_role = (Resolved reply, s2) ->
  Reply.error reply = Some err ->
  run svc syncAllUsersAppMetadata s =
    {| completion :=
         Returns {| success := false;
                    message := "Failed to fetch profiles";
                    error := Some (Err.message err) |};
       trace := [Connected true (Resolved cl);
                 Called profiles_select_id_role (Resolved reply);
                 Logged (console_error "Error fetching profiles:" err)];
       final := s2 |}.
Proof.
  intros Hc Hr Herr. unfold syncAllUsersAppMetadata, createClient, await.
  cbn [bind try_catch]. rewrite (run_CreateClient _ _ _ _ _ Hc).
  cbn [settle bind try_catch]. rewrite (run_Invoke _ _ _ _ _ Hr).
  cbn [settle bind try_catch]. rewrite Herr. reflexivity.
Qed.

Lemma run_sync_empty s cl s1 reply s2 :
  connect svc s true = (Resolved cl, s1) ->
  respond svc s1 profiles_select_id_role = (Resolved reply, s2) ->
  Reply.error reply = None ->
  Reply.data reply = None \/ Reply.data reply = Some [] ->
  run svc syncAllUsersAppMetadata s =
    {| completion :=
         Returns {| success := true;
                    message := "No profiles found to sync";
                    error := None |};
       trace := [Connected true (Resolved cl);
                 Called profiles_select_id_role (Resolved reply)];
       final := s2 |}.
Proof.
  intros Hc Hr Herr Hdata. unfold syncAllUsersAppMetadata, createClient, await.
  cbn [bind try_catch]. rewrite (run_CreateClient _ _ _ _ _ Hc).
  cbn [settle bind try_catch]. rewrite (run_Invoke _ _ _ _ _ Hr).
  cbn [settle bind try_catch]. rewrite Herr.
  destruct Hdata as [-> | ->]; reflexivity.
Qed.

Lemma run_sync_loop s cl s1 reply s2 rows :
  connect svc s true = (Resolved cl, s1) ->
  respond svc s1 profiles_select_id_role = (Resolved reply, s2) ->
  Reply.error reply = None ->
  Reply.data reply = Some rows ->
  rows <> [] ->
  let loop :=
    run svc (for_of rows sync_profile
               {| successCount := 0; errorCount := 0; errors := [] |}) s2 in
  exists st,
    completion loop = Returns st /\
    run svc syncAllUsersAppMetadata s =
      {| completion :=
           Returns {| success := true;
                      message := "Synced app_metadata for "
                                 ++ Number_toString (successCount st)
                                 ++ " users. "
                                 ++ Number_toString (errorCount st)
                                 ++ " errors.";
                      error := None |};
         trace := Connected true (Resolved cl)
                  :: Called profiles_select_id_role (Resolved reply)
                  :: trace loop;
         final := final loop |}.
Proof.
  intros Hc Hr Herr Hdata Hne loop.
  destruct (run_for_of_sync rows
              {| successCount := 0; errorCount := 0; errors := [] |} s2)
    as (st & Hst & _).
  exists st. split; [exact Hst|].
  unfold syncAllUsersAppMetadata, createClient, await.
  cbn [bind try_catch]. rewrite (run_CreateClient _ _ _ _ _ Hc).
  cbn [settle bind try_catch]. rewrite (run_Invoke _ _ _ _ _ Hr).
  cbn [settle bind try_catch]. rewrite Herr, Hdata.
  destruct rows as [|profile rest]; [congruence|].
  rewrite run_try_catch, run_bind. fold loop in Hst |- *.
  unfold or_else, and_then, after. rewrite Hst. cbn.
  rewrite app_nil_r. reflexivity.
Qed.

End Execution.

(** ** The uniform result contract *)

(** C1 (amended): for every action, once the client is built and the primary
    call is answered, the result follows the [error] member of that reply: a
    reported error gives [success = false] with [error] equal to the reported
    message; no reported error gives [success = true] and no [error] member,
    for [changeUserEmail] provided the mirror write is answered as well (with
    or without an error) rather than throwing.  The statement covers the
    seven single-purpose actions and, with the profile read as its primary
    call, the bulk sync too. *)
Theorem result_follows_reported_error
  {St : Type} (svc : Service St) env a s cl s1 reply s2 :
  connect svc s true = (Resolved cl, s1) ->
  respond svc s1 (primary env a) = (Resolved reply, s2) ->
  exists r,
    completion (run svc (perform env a) s) = Returns r /\
    (forall err,
       Reply.error reply = Some err ->
       success r = false /\ error r = Some (Err.message err)) /\
    (Reply.error reply = None ->
     (forall c, secondary a = Some c ->
        exists mirror s3, respond svc s2 c = (Resolved mirror, s3)) ->
     success r = true /\ error r = None).
Proof.
  intros Hc Hr. destruct a.
  2-7: unfold perform, sendPasswordReset,
         requestReauthentication, inviteUser, sendMagicLink, deleteUser,
         updateUserAppMetadata; cbn in Hr |- *; rewrite Hc; cbn; rewrite Hr;
       cbn; destruct (Reply.error reply) as [err|]; cbn; eexists;
       (split; [reflexivity|]); (split; [intros ? [= <-] | intros ? ]);
       try discriminate; split; reflexivity.
  - unfold perform, changeUserEmail. cbn in Hr |- *. rewrite Hc. cbn.
    rewrite Hr. cbn. destruct (Reply.error reply) as [err|].
    + cbn. eexists. split; [reflexivity|].
      split; [intros ? [= <-]; split; reflexivity | discriminate].
    + cbn.
      destruct (respond svc s2 (profiles_update_email_eq_id newEmail userId))
        as [[mirror|e] s3] eqn:Hm.
      * cbn. destruct (Reply.error mirror); cbn; eexists;
          (split; [reflexivity|]); (split; [discriminate|]);
          split; reflexivity.
      * cbn. eexists. split; [reflexivity|]. split; [discriminate|].
        intros _ Hmirror.
        destruct (Hmirror _ eq_refl) as (mirror & s3' & Hm').
        congruence.
  - cbn [perform]. cbn in Hr.
    destruct (Reply.error reply) as [err|] eqn:Herr.
    + rewrite (run_sync_read_error svc s cl s1 reply err s2 Hc Hr Herr).
      eexists. split; [reflexivity|].
      split; [intros ? [= <-]; split; reflexivity | discriminate].
    + destruct (Reply.data reply) as [[|profile rest]|] eqn:Hdata.
      * rewrite (run_sync_empty svc s cl s1 reply s2 Hc Hr Herr
                   (or_intror Hdata)).
        eexists. split; [reflexivity|]. split; [discriminate|].
        split; reflexivity.
      * destruct (run_sync_loop svc s cl s1 reply s2 _ Hc Hr Herr Hdata)
          as (st & _ & Hrun); [discriminate|].
        rewrite Hrun. eexists. split; [reflexivity|]. split; [discriminate|].
        split; reflexivity.
      * rewrite (run_sync_empty svc s cl s1 reply s2 Hc Hr Herr
                   (or_introl Hdata)).
        eexists. split; [reflexivity|]. split; [discriminate|].
        split; reflexivity.
Qed.

Lemma result_follows_reported_error_witness :
  connect answering mirror_error_script true
    = (Resolved a_client, mirror_error_script) /\
  respond answering mirror_error_script
    (primary None (ChangeUserEmail "u1" "new@example.com"))
    = (Resolved ok_reply,
       [Resolved (error_reply "permission denied for table profiles")]) /\
  exists r,
    completion (run answering
                  (perform None (ChangeUserEmail "u1" "new@example.com"))
                  mirror_error_script) = Returns r /\
    success r = true /\ error r = None.
Proof.
  split; [reflexivity|]. split; [reflexivity|].
  destruct (result_follows_reported_error answering None
              (ChangeUserEmail "u1" "new@example.com") mirror_error_script
              a_client mirror_error_script ok_reply
              [Resolved (error_reply "permission denied for table profiles")]
              eq_refl eq_refl) as (r & Hr & _ & Hok).
  exists r. split; [exact Hr|]. apply Hok; [reflexivity|].
  intros c Hc. injection Hc as <-. eexists; eexists; reflexivity.
Defined.

(** C1 as first stated fails: in [changeUserEmail] the identity provider can
    answer the email update without an error and the result still be
    [success = false] with an [error] member, namely when the mirror write
    that follows throws. *)
Lemma clean_primary_reply_does_not_force_success :
  connect answering mirror_throw_script true
    = (Resolved a_client, mirror_throw_script) /\
  respond answering mirror_throw_script
    (primary None (ChangeUserEmail "u1" "new@example.com"))
    = (Resolved ok_reply, [Rejected fetch_failed]) /\
  Reply.error ok_reply = None /\
  completion (run answering
                (perform None (ChangeUserEmail "u1" "new@example.com"))
                mirror_throw_script) =
    Returns {| success := false;
               message := "An unexpected error occurred while changing the email";
               error := Some "fetch failed" |} /\
  ~ (exists r,
       completion (run answering
                     (perform None (ChangeUserEmail "u1" "new@example.com"))
                     mirror_throw_script) = Returns r /\
       success r = true /\ error r = None).
Proof.
  do 4 (split; [reflexivity|]).
  intros (r & Hr & Hs & _). cbn in Hr. injection Hr as <-. discriminate Hs.
Qed.

(** C5: when the identity provider accepts the new email and the mirror write
    to the profile table reports an error, [changeUserEmail] still returns
    [success = true], with its usual confirmation and no [error] member. *)
Theorem changeUserEmail_absorbs_mirror_error
  {St : Type} (svc : Service St)
  userId newEmail s cl s1 reply s2 mirror mirrorError s3 :
  connect svc s true = (Resolved cl, s1) ->
  respond svc s1 (auth_admin_updateUserById userId (AttrEmail newEmail))
    = (Resolved reply, s2) ->
  Reply.error reply = None ->
  respond svc s2 (profiles_update_email_eq_id newEmail userId)
    = (Resolved mirror, s3) ->
  Reply.error mirror = Some mirrorError ->
  completion (run svc (changeUserEmail userId newEmail) s) =
    Returns {| success := true;
               message := "Email successfully changed to " ++ newEmail
                          ++ ". User will receive a confirmation email.";
               error := None |}.
Proof.
  intros Hc Hr Herr Hm Hmerr. unfold changeUserEmail. cbn. rewrite Hc. cbn.
  rewrite Hr. cbn. rewrite Herr. cbn. rewrite Hm. cbn. rewrite Hmerr.
  reflexivity.
Qed.

Lemma changeUserEmail_absorbs_mirror_error_witness :
  Reply.error (error_reply "permission denied for table profiles")
    = Some {| Err.message := "permission denied for table profiles" |} /\
  completion (run answering (changeUserEmail "u1" "new@example.com")
                mirror_error_script) =
    Returns {| success := true;
               message := "Email successfully changed to new@example.com. User will receive a confirmation email.";
               error := None |}.
Proof.
  split; [reflexivity|].
  exact (changeUserEmail_absorbs_mirror_error answering
           "u1" "new@example.com" mirror_error_script a_client
           mirror_error_script ok_reply
           [Resolved (error_reply "permission denied for table profiles")]
           (error_reply "permission denied for table profiles")
           {| Err.message := "permission denied for table profiles" |} []
           eq_refl eq_refl eq_refl eq_refl eq_refl).
Defined.

(** C2 (amended): no action ever raises.  Whatever the service does, every
    action returns an [ActionResult]; and when an exception reaches the
    action's outer [catch] block (a rejected client construction, or a
    rejected call other than a per-user update inside the sync loop), that
    result is [success = false] with the action's fixed "unexpected error"
    message and [error] equal to the exception's text. *)
Theorem actions_never_raise {St : Type} (svc : Service St) env a s :
  exists r,
    completion (run svc (perform env a) s) = Returns r /\
    forall ev e,
      In ev (trace (run svc (perform env a) s)) ->
      escapes a ev = Some e ->
      r = {| success := false;
             message := unexpected_message a;
             error := Some (Err.message e) |}.
Proof.
  destruct a.
  1-7: unfold perform, changeUserEmail, sendPasswordReset,
         requestReauthentication, inviteUser, sendMagicLink, deleteUser,
         updateUserAppMetadata;
       execute svc; eexists; (split; [reflexivity|]);
       intros ev e' Hin Hesc; cbn in Hin;
       repeat (destruct Hin as [<- | Hin]; [try discriminate Hesc|]);
       try contradiction; try (injection Hesc as <-; reflexivity).
  cbn [perform].
  destruct (connect svc s true) as [[cl|e] s1] eqn:Hc.
  2: { rewrite (run_sync_connect_rejected svc s e s1 Hc). eexists.
       split; [reflexivity|]. cbn. intros ev e' [<- | [<- | []]] [= <-].
       reflexivity. }
  destruct (respond svc s1 profiles_select_id_role) as [[reply|e] s2] eqn:Hr.
  2: { rewrite (run_sync_read_rejected svc s cl s1 e s2 Hc Hr). eexists.
       split; [reflexivity|]. cbn.
       intros ev e' [<- | [<- | [<- | []]]] [= <-]. reflexivity. }
  destruct (Reply.error reply) as [err|] eqn:Herr.
  { rewrite (run_sync_read_error svc s cl s1 reply err s2 Hc Hr Herr). eexists.
    split; [reflexivity|]. cbn.
    intros ev e' [<- | [<- | [<- | []]]]; discriminate. }
  destruct (Reply.data reply) as [[|profile rest]|] eqn:Hdata.
  - rewrite (run_sync_empty svc s cl s1 reply s2 Hc Hr Herr (or_intror Hdata)).
    eexists. split; [reflexivity|]. cbn.
    intros ev e' [<- | [<- | []]]; discriminate.
  - destruct (run_sync_loop svc s cl s1 reply s2 _ Hc Hr Herr Hdata)
      as (st & _ & Hrun); [discriminate|].
    rewrite Hrun. eexists. split; [reflexivity|]. cbn [trace].
    intros ev e' [<- | [<- | Hin]]; try discriminate.
    apply sync_loop_trace in Hin. destruct Hin as (p & o & ->).
    destruct o; discriminate.
  - rewrite (run_sync_empty svc s cl s1 reply s2 Hc Hr Herr (or_introl Hdata)).
    eexists. split; [reflexivity|]. cbn.
    intros ev e' [<- | [<- | []]]; discriminate.
Qed.

Lemma actions_never_raise_witness :
  In (Connected true (Rejected no_service_key))
     (trace (run refusing (perform None (DeleteUser "u1")) [])) /\
  escapes (DeleteUser "u1") (Connected true (Rejected no_service_key))
    = Some no_service_key /\
  completion (run refusing (perform None (DeleteUser "u1")) []) =
    Returns {| success := false;
               message := "An unexpected error occurred while deleting user";
               error := Some "Missing service role key" |}.
Proof.
  split; [left; reflexivity|]. split; [reflexivity|].
  destruct (actions_never_raise refusing None (DeleteUser "u1") [])
    as (r & Hr & Hcaught).
  rewrite Hr. f_equal.
  exact (Hcaught (Connected true (Rejected no_service_key)) no_service_key
           (or_introl eq_refl) eq_refl).
Defined.

(** C2 as first stated fails: an exception thrown by a per-user update of
    [syncAllUsersAppMetadata] is a thrown call, yet the action returns
    [success = true] with no [error] member, not the "unexpected error"
    result. *)
Lemma thrown_update_does_not_fail_sync :
  In (Called (metadata_update row_a) (Rejected fetch_failed))
     (trace (run answering (perform None SyncAllUsersAppMetadata)
               thrown_update_script)) /\
  thrown (Called (metadata_update row_a) (Rejected fetch_failed))
    = Some fetch_failed /\
  completion (run answering (perform None SyncAllUsersAppMetadata)
                thrown_update_script) =
    Returns {| success := true;
               message := "Synced app_metadata for 0 users. 1 errors.";
               error := None |} /\
  completion (run answering (perform None SyncAllUsersAppMetadata)
                thrown_update_script) <>
    Returns {| success := false;
               message := unexpected_message SyncAllUsersAppMetadata;
               error := Some (Err.message fetch_failed) |}.
Proof.
  split; [cbn; auto|]. split; [reflexivity|]. split; [reflexivity|].
  cbn. discriminate.
Qed.

(** C9: on every return path of every action the message is non-empty, and a
    result with [success = false] has its [error] member set to the
    diagnostic of the last exchange with the service: the message of the
    error that reply reported, or of the exception that call threw. *)
Theorem failure_carries_diagnostic {St : Type} (svc : Service St) env a s :
  exists r,
    completion (run svc (perform env a) s) = Returns r /\
    message r <> "" /\
    (success r = false ->
     exists ev d,
       last_exchange (trace (run svc (perform env a) s)) = Some ev /\
       diagnostic ev = Some d /\
       error r = Some d).
Proof.
  destruct a.
  1-7: unfold perform, changeUserEmail, sendPasswordReset,
         requestReauthentication, inviteUser, sendMagicLink, deleteUser,
         updateUserAppMetadata;
       execute svc; eexists; (split; [reflexivity|]);
       (split; [discriminate|]); cbn; intros Hs; try discriminate Hs;
       eexists; eexists; (split; [reflexivity|]); cbn;
       rewrite ?Herror; split; reflexivity.
  cbn [perform].
  destruct (connect svc s true) as [[cl|e] s1] eqn:Hc.
  2: { rewrite (run_sync_connect_rejected svc s e s1 Hc). eexists.
       split; [reflexivity|]. split; [discriminate|]. intros _.
       eexists; eexists; repeat split. }
  destruct (respond svc s1 profiles_select_id_role) as [[reply|e] s2] eqn:Hr.
  2: { rewrite (run_sync_read_rejected svc s cl s1 e s2 Hc Hr). eexists.
       split; [reflexivity|]. split; [discriminate|]. intros _.
       eexists; eexists; repeat split. }
  destruct (Reply.error reply) as [err|] eqn:Herr.
  { rewrite (run_sync_read_error svc s cl s1 reply err s2 Hc Hr Herr). eexists.
    split; [reflexivity|]. split; [discriminate|]. intros _.
    eexists; eexists. split; [reflexivity|]. cbn. rewrite Herr.
    split; reflexivity. }
  destruct (Reply.data reply) as [[|profile rest]|] eqn:Hdata.
  - rewrite (run_sync_empty svc s cl s1 reply s2 Hc Hr Herr (or_intror Hdata)).
    eexists. split; [reflexivity|]. split; discriminate.
  - destruct (run_sync_loop svc s cl s1 reply s2 _ Hc Hr Herr Hdata)
      as (st & _ & Hrun); [discriminate|].
    rewrite Hrun. eexists. split; [reflexivity|]. split; discriminate.
  - rewrite (run_sync_empty svc s cl s1 reply s2 Hc Hr Herr (or_introl Hdata)).
    eexists. split; [reflexivity|]. split; discriminate.
Qed.

Lemma failure_carries_diagnostic_witness :
  exists r,
    completion (run answering (perform None SyncAllUsersAppMetadata)
                  read_error_script) = Returns r /\
    success r = false /\
    exists ev d,
      last_exchange (trace (run answering (perform None SyncAllUsersAppMetadata)
                              read_error_script)) = Some ev /\
      diagnostic ev = Some d /\
      error r = Some d.
Proof.
  destruct (failure_carries_diagnostic answering None SyncAllUsersAppMetadata
              read_error_script) as (r & Hr & _ & Hdiag).
  exists r. split; [exact Hr|].
  assert (Hs : success r = false).
  { cbn in Hr. injection Hr as <-. reflexivity. }
  split; [exact Hs | exact (Hdiag Hs)].
Defined.

(** ** Bulk metadata synchronization *)

(** C4: when the read of the profiles table reports an error,
    [syncAllUsersAppMetadata] returns [success = false] with [error] equal to
    the read error's text; the read is the only call it issued, no metadata
    update among them, and the service is left in the state the read put it
    in. *)
Theorem sync_read_error_is_fatal
  {St : Type} (svc : Service St) s cl s1 reply err s2 :
  connect svc s true = (Resolved cl, s1) ->
  respond svc s1 profiles_select_id_role = (Resolved reply, s2) ->
  Reply.error reply = Some err ->
  completion (run svc syncAllUsersAppMetadata s) =
    Returns {| success := false;
               message := "Failed to fetch profiles";
               error := Some (Err.message err) |} /\
  calls (trace (run svc syncAllUsersAppMetadata s)) = [profiles_select_id_role] /\
  count_updates true (trace (run svc syncAllUsersAppMetadata s)) = 0 /\
  count_updates false (trace (run svc syncAllUsersAppMetadata s)) = 0 /\
  final (run svc syncAllUsersAppMetadata s) = s2.
Proof.
  intros Hc Hr Herr.
  rewrite (run_sync_read_error svc s cl s1 reply err s2 Hc Hr Herr).
  repeat split; reflexivity.
Qed.

Lemma sync_read_error_is_fatal_witness :
  respond answering read_error_script profiles_select_id_role
    = (Resolved (error_reply "permission denied for table profiles"), []) /\
  completion (run answering syncAllUsersAppMetadata read_error_script) =
    Returns {| success := false;
               message := "Failed to fetch profiles";
               error := Some "permission denied for table profiles" |} /\
  calls (trace (run answering syncAllUsersAppMetadata read_error_script))
    = [profiles_select_id_role].
Proof.
  split; [reflexivity|].
  destruct (sync_read_error_is_fatal answering read_error_script a_client
              read_error_script
              (error_reply "permission denied for table profiles")
              {| Err.message := "permission denied for table profiles" |} []
              eq_refl eq_refl eq_refl) as (Hresult & Hcalls & _).
  split; [exact Hresult | exact Hcalls].
Defined.

(** C7: when the read succeeds with no rows, or with a null row set,
    [syncAllUsersAppMetadata] returns [success = true] with the message
    "No profiles found to sync", and the read is the only call it issued. *)
Theorem sync_no_profiles
  {St : Type} (svc : Service St) s cl s1 reply s2 :
  connect svc s true = (Resolved cl, s1) ->
  respond svc s1 profiles_select_id_role = (Resolved reply, s2) ->
  Reply.error reply = None ->
  Reply.data reply = None \/ Reply.data reply = Some [] ->
  completion (run svc syncAllUsersAppMetadata s) =
    Returns {| success := true;
               message := "No profiles found to sync";
               error := None |} /\
  calls (trace (run svc syncAllUsersAppMetadata s)) = [profiles_select_id_role] /\
  final (run svc syncAllUsersAppMetadata s) = s2.
Proof.
  intros Hc Hr Herr Hdata.
  rewrite (run_sync_empty svc s cl s1 reply s2 Hc Hr Herr Hdata).
  repeat split; reflexivity.
Qed.

Lemma sync_no_profiles_witness :
  respond answering no_rows_script profiles_select_id_role
    = (Resolved (rows_reply []), []) /\
  completion (run answering syncAllUsersAppMetadata no_rows_script) =
    Returns {| success := true;
               message := "No profiles found to sync";
               error := None |} /\
  calls (trace (run answering syncAllUsersAppMetadata no_rows_script))
    = [profiles_select_id_role] /\
  final (run answering syncAllUsersAppMetadata no_rows_script) = [].
Proof.
  split; [reflexivity|].
  exact (sync_no_profiles answering no_rows_script a_client no_rows_script
           (rows_reply []) [] eq_refl eq_refl eq_refl (or_intror eq_refl)).
Defined.

(** C10: each turn of the sync loop issues exactly one metadata update and
    adds one to exactly one counter: to [errorCount] when the update reports
    an error or throws, to [successCount] otherwise.  So when the read
    succeeds with a non-empty row list, the updates issued are those of the
    rows, one each and in order, the two counts printed in the message are
    the numbers of updates that went through and that failed, and they add up
    to the number of rows. *)
Theorem sync_counts_cover_every_row {St : Type} (svc : Service St) :
  (forall st profile s,
     exists st1,
       completion (run svc (sync_profile st profile) s) = Returns st1 /\
       calls (trace (run svc (sync_profile st profile) s)) =
         [metadata_update profile] /\
       successCount st1 =
         successCount st
         + (if failed (fst (respond svc s (metadata_update profile)))
            then 0 else 1) /\
       errorCount st1 =
         errorCount st
         + (if failed (fst (respond svc s (metadata_update profile)))
            then 1 else 0)) /\
  (forall s cl s1 reply s2 rows,
     connect svc s true = (Resolved cl, s1) ->
     respond svc s1 profiles_select_id_role = (Resolved reply, s2) ->
     Reply.error reply = None ->
     Reply.data reply = Some rows ->
     rows <> [] ->
     exists st,
       completion (run svc syncAllUsersAppMetadata s) =
         Returns {| success := true;
                    message := "Synced app_metadata for "
                               ++ Number_toString (successCount st)
                               ++ " users. "
                               ++ Number_toString (errorCount st)
                               ++ " errors.";
                    error := None |} /\
       calls (trace (run svc syncAllUsersAppMetadata s)) =
         profiles_select_id_role :: map metadata_update rows /\
       successCount st =
         count_updates false (trace (run svc syncAllUsersAppMetadata s)) /\
       errorCount st =
         count_updates true (trace (run svc syncAllUsersAppMetadata s)) /\
       length (errors st) = errorCount st /\
       successCount st + errorCount st = length rows).
Proof.
  split.
  - intros st profile s.
    destruct (respond svc s (metadata_update profile)) as [o s1] eqn:Hr.
    destruct (run_sync_profile svc st profile s o s1 Hr)
      as (st1 & Hrun & Hs & He & _).
    exists st1. rewrite Hrun. cbn. auto.
  - intros s cl s1 reply s2 rows Hc Hr Herr Hdata Hne.
    destruct (run_sync_loop svc s cl s1 reply s2 rows Hc Hr Herr Hdata Hne)
      as (st & Hst & Hrun).
    destruct (run_for_of_sync svc rows
                {| successCount := 0; errorCount := 0; errors := [] |} s2)
      as (st' & Hst' & Hcalls & Hs & He & Hl & Hsum).
    rewrite Hst in Hst'. injection Hst' as <-.
    exists st. rewrite Hrun. cbn [completion trace calls count_updates].
    cbn in Hs, He, Hl. rewrite Hcalls. repeat split; try assumption; lia.
Qed.

Lemma sync_counts_cover_every_row_witness :
  respond answering partial_sync_script profiles_select_id_role
    = (Resolved (rows_reply [row_a; row_b]),
       [Resolved (error_reply "User not found"); Resolved ok_reply]) /\
  [row_a; row_b] <> [] /\
  exists st,
    completion (run answering syncAllUsersAppMetadata partial_sync_script) =
      Returns {| success := true;
                 message := "Synced app_metadata for "
                            ++ Number_toString (successCount st)
                            ++ " users. "
                            ++ Number_toString (errorCount st)
                            ++ " errors.";
                 error := None |} /\
    successCount st + errorCount st = 2.
Proof.
  split; [reflexivity|]. split; [discriminate|].
  destruct (proj2 (sync_counts_cover_every_row answering)
              partial_sync_script a_client partial_sync_script
              (rows_reply [row_a; row_b])
              [Resolved (error_reply "User not found"); Resolved ok_reply]
              [row_a; row_b] eq_refl eq_refl eq_refl eq_refl
              ltac:(discriminate))
    as (st & Hresult & _ & _ & _ & _ & Hsum).
  exists st. split; [exact Hresult | exact Hsum].
Defined.

(** C3: given profile rows a (admin) and b (client), when the update of a
    fails (reports an error or throws) and the update of b goes through,
    [syncAllUsersAppMetadata] issues both updates, a's then b's, and returns
    [success = true] with the message
    "Synced app_metadata for 1 users. 1 errors.".  More generally, once the
    read has succeeded the action returns [success = true] with no [error]
    member, whatever happens to the per-user updates. *)
Theorem sync_continues_after_failure {St : Type} (svc : Service St) :
  (forall s cl s1 reply s2 oa s3 ob s4,
     connect svc s true = (Resolved cl, s1) ->
     respond svc s1 profiles_select_id_role = (Resolved reply, s2) ->
     Reply.error reply = None ->
     Reply.data reply = Some [row_a; row_b] ->
     respond svc s2 (auth_admin_updateUserById "a" (AttrAppMetadata "admin"))
       = (oa, s3) ->
     failed oa = true ->
     respond svc s3 (auth_admin_updateUserById "b" (AttrAppMetadata "client"))
       = (ob, s4) ->
     failed ob = false ->
     completion (run svc syncAllUsersAppMetadata s) =
       Returns {| success := true;
                  message := "Synced app_metadata for 1 users. 1 errors.";
                  error := None |} /\
     calls (trace (run svc syncAllUsersAppMetadata s)) =
       [profiles_select_id_role;
        auth_admin_updateUserById "a" (AttrAppMetadata "admin");
        auth_admin_updateUserById "b" (AttrAppMetadata "client")]) /\
  (forall s cl s1 reply s2,
     connect svc s true = (Resolved cl, s1) ->
     respond svc s1 profiles_select_id_role = (Resolved reply, s2) ->
     Reply.error reply = None ->
     exists r,
       completion (run svc syncAllUsersAppMetadata s) = Returns r /\
       success r = true /\ error r = None).
Proof.
  split.
  - intros s cl s1 reply s2 oa s3 ob s4 Hc Hr Herr Hdata Ha Hfa Hb Hfb.
    destruct (run_sync_loop svc s cl s1 reply s2 _ Hc Hr Herr Hdata)
      as (st & Hst & Hrun); [discriminate|].
    destruct (run_sync_profile svc
                {| successCount := 0; errorCount := 0; errors := [] |}
                row_a s2 oa s3 Ha) as (st1 & Hrun1 & Hs1 & He1 & _).
    destruct (run_sync_profile svc st1 row_b s3 ob s4 Hb)
      as (st2 & Hrun2 & Hs2 & He2 & _).
    assert (Hloop :
      run svc (for_of [row_a; row_b] sync_profile
                 {| successCount := 0; errorCount := 0; errors := [] |}) s2 =
      {| completion := Returns st2;
         trace := [Called (metadata_update row_a) oa;
                   Called (metadata_update row_b) ob];
         final := s4 |}).
    { cbn [for_of]. rewrite run_bind, Hrun1. unfold and_then.
      cbn [completion final trace]. rewrite run_bind, Hrun2.
      reflexivity. }
    rewrite Hloop in Hst, Hrun. cbn in Hst. injection Hst as <-.
    rewrite Hrun. cbn [completion trace calls].
    rewrite Hfa in *. rewrite Hfb in *. cbn in Hs1, He1.
    replace (successCount st2) with 1 by lia.
    replace (errorCount st2) with 1 by lia.
    split; reflexivity.
  - intros s cl s1 reply s2 Hc Hr Herr.
    destruct (Reply.data reply) as [[|profile rest]|] eqn:Hdata.
    + rewrite (run_sync_empty svc s cl s1 reply s2 Hc Hr Herr
                 (or_intror Hdata)).
      eexists; repeat split.
    + destruct (run_sync_loop svc s cl s1 reply s2 _ Hc Hr Herr Hdata)
        as (st & _ & Hrun); [discriminate|].
      rewrite Hrun. eexists; repeat split.
    + rewrite (run_sync_empty svc s cl s1 reply s2 Hc Hr Herr
                 (or_introl Hdata)).
      eexists; repeat split.
Qed.

Lemma sync_continues_after_failure_witness :
  failed (Resolved (error_reply "User not found")) = true /\
  failed (Resolved ok_reply) = false /\
  completion (run answering syncAllUsersAppMetadata partial_sync_script) =
    Returns {| success := true;
               message := "Synced app_metadata for 1 users. 1 errors.";
               error := None |} /\
  calls (trace (run answering syncAllUsersAppMetadata partial_sync_script)) =
    [profiles_select_id_role;
     auth_admin_updateUserById "a" (AttrAppMetadata "admin");
     auth_admin_updateUserById "b" (AttrAppMetadata "client")].
Proof.
  split; [reflexivity|]. split; [reflexivity|].
  exact (proj1 (sync_continues_after_failure answering)
           partial_sync_script a_client partial_sync_script
           (rows_reply [row_a; row_b])
           [Resolved (error_reply "User not found"); Resolved ok_reply]
           (Resolved (error_reply "User not found"))
           [Resolved ok_reply]
           (Resolved ok_reply) []
           eq_refl eq_refl eq_refl eq_refl eq_refl eq_refl eq_refl eq_refl).
Defined.

(** ** Requests of the single-call actions *)

(** C8: [inviteUser] without a role argument sends the role "client", and
    with a role argument sends that role; in either case the same text goes
    into both metadata members of the one invite request, [data.role] and
    [app_metadata.role].  (No request is sent when the client cannot be
    built.) *)
Theorem inviteUser_role_in_both_places
  {St : Type} (svc : Service St) env email s :
  let invitations (role : string) :=
    match fst (connect svc s true) with
    | Resolved _ =>
        [auth_admin_inviteUserByEmail email
           {| data_role := role;
              app_metadata_role := role;
              redirectTo := siteUrl env ++ "/auth/callback" |}]
    | Rejected _ => []
    end in
  calls (trace (run svc (inviteUser env email None) s)) = invitations "client" /\
  forall role,
    calls (trace (run svc (inviteUser env email (Some role)) s)) =
    invitations (role_text role).
Proof.
  unfold inviteUser. split; [|intros role]; execute svc; reflexivity.
Qed.

(** C6 (amended): [requestReauthentication] always sends its one-time-passcode
    request with the create-user flag false and [sendMagicLink] always with
    the flag true; for every email the two requests are otherwise equal, and
    the two actions are one and the same flow up to that flag and their
    wording.  When the service answers the two requests alike, the two
    results agree on [success] and [error] and leave the service in the same
    state; the message and log texts are specific to each action. *)
Theorem otp_flows_differ_in_flag_and_wording
  {St : Type} (svc : Service St) env email s :
  let otp (createUser : bool) :=
    auth_signInWithOtp email
      {| shouldCreateUser := createUser;
         emailRedirectTo := siteUrl env ++ "/dashboard" |} in
  let requests (createUser : bool) :=
    match fst (connect svc s true) with
    | Resolved _ => [otp createUser]
    | Rejected _ => []
    end in
  calls (trace (run svc (requestReauthentication env email) s)) = requests false /\
  calls (trace (run svc (sendMagicLink env email) s)) = requests true /\
  requestReauthentication env email =
    otp_flow env false reauthentication_wording email /\
  sendMagicLink env email = otp_flow env true magic_link_wording email /\
  ((forall cl s1,
      connect svc s true = (Resolved cl, s1) ->
      respond svc s1 (otp false) = respond svc s1 (otp true)) ->
   exists r1 r2,
     completion (run svc (requestReauthentication env email) s) = Returns r1 /\
     completion (run svc (sendMagicLink env email) s) = Returns r2 /\
     success r1 = success r2 /\
     error r1 = error r2 /\
     final (run svc (requestReauthentication env email) s) =
     final (run svc (sendMagicLink env email) s)).
Proof.
  intros otp requests. subst requests.
  split; [|split; [|split; [|split]]]; try reflexivity.
  - unfold requestReauthentication. execute svc; reflexivity.
  - unfold sendMagicLink. execute svc; reflexivity.
  - intros Hsame. unfold requestReauthentication, sendMagicLink. cbn.
    destruct (connect svc s true) as [[cl|e] s1] eqn:Hc; cbn.
    + specialize (Hsame cl s1 eq_refl). subst otp. cbn in Hsame.
      rewrite <- Hsame.
      destruct (respond svc s1 _) as [[reply|e] s2]; cbn;
        [destruct (Reply.error reply); cbn|];
        eexists; eexists; repeat split.
    + eexists; eexists; repeat split.
Qed.

Lemma otp_flows_differ_in_flag_and_wording_witness :
  exists r1 r2,
    completion (run answering
                  (requestReauthentication None "user@example.com") [])
      = Returns r1 /\
    completion (run answering (sendMagicLink None "user@example.com") [])
      = Returns r2 /\
    success r1 = success r2 /\
    error r1 = error r2 /\
    final (run answering (requestReauthentication None "user@example.com") [])
    = final (run answering (sendMagicLink None "user@example.com") []).
Proof.
  exact (proj2 (proj2 (proj2 (proj2
           (otp_flows_differ_in_flag_and_wording answering None
              "user@example.com" []))))
           (fun cl s1 _ => eq_refl)).
Defined.

(** C6 as first stated fails: the flag is not the only difference between the
    two actions.  Given the same email and a service that answers both alike,
    they return different messages. *)
Lemma otp_flows_return_different_messages :
  completion (run answering
                (requestReauthentication None "user@example.com") []) =
    Returns {| success := true;
               message := "Reauthentication link has been sent to user@example.com";
               error := None |} /\
  completion (run answering (sendMagicLink None "user@example.com") []) =
    Returns {| success := true;
               message := "Magic link has been sent to user@example.com";
               error := None |} /\
  completion (run answering
                (requestReauthentication None "user@example.com") []) <>
  completion (run answering (sendMagicLink None "user@example.com") []).
Proof. repeat split; try reflexivity. cbn. discriminate. Qed.

(** ** Further properties of the actions *)

Section Cases.

Context {St : Type} (svc : Service St).

(** Every run of [syncAllUsersAppMetadata] is one of five: the client is
    refused, the read throws, the read reports an error, the read finds
    nothing, or the loop runs over the rows. *)
Lemma run_sync_cases s :
  (exists e s1,
     connect svc s true = (Rejected e, s1) /\
     run svc syncAllUsersAppMetadata s =
       {| completion :=
            Returns {| success := false;
                       message :=
                         "An unexpected error occurred while syncing user app_metadata";
                       error := Some (Err.message e) |};
          trace := [Connected true (Rejected e);
                    Logged (console_error
                              "Unexpected error in syncAllUsersAppMetadata:" e)];
          final := s1 |}) \/
  (exists cl s1 e s2,
     connect svc s true = (Resolved cl, s1) /\
     respond svc s1 profiles_select_id_role = (Rejected e, s2) /\
     run svc syncAllUsersAppMetadata s =
       {| completion :=
            Returns {| success := false;
                       message :=
                         "An unexpected error occurred while syncing user app_metadata";
                       error := Some (Err.message e) |};
          trace := [Connected true (Resolved cl);
                    Called profiles_select_id_role (Rejected e);
                    Logged (console_error
                              "Unexpected error in syncAllUsersAppMetadata:" e)];
          final := s2 |}) \/
  (exists cl s1 reply err s2,
     connect svc s true = (Resolved cl, s1) /\
     respond svc s1 profiles_select_id_role = (Resolved reply, s2) /\
     Reply.error reply = Some err /\
     run svc syncAllUsersAppMetadata s =
       {| completion :=
            Returns {| success := false;
                       message := "Failed to fetch profiles";
                       error := Some (Err.message err) |};
          trace := [Connected true (Resolved cl);
                    Called profiles_select_id_role (Resolved reply);
                    Logged (console_error "Error fetching profiles:" err)];
          final := s2 |}) \/
  (exists cl s1 reply s2,
     connect svc s true = (Resolved cl, s1) /\
     respond svc s1 profiles_select_id_role = (Resolved reply, s2) /\
     Reply.error reply = None /\
     (Reply.data reply = None \/ Reply.data reply = Some []) /\
     run svc syncAllUsersAppMetadata s =
       {| completion :=
            Returns {| success := true;
                       message := "No profiles found to sync";
                       error := None |};
          trace := [Connected true (Resolved cl);
                    Called profiles_select_id_role (Resolved reply)];
          final := s2 |}) \/
  (exists cl s1 reply s2 rows st,
     connect svc s true = (Resolved cl, s1) /\
     respond svc s1 profiles_select_id_role = (Resolved reply, s2) /\
     Reply.error reply = None /\
     Reply.data reply = Some rows /\
     rows <> [] /\
     completion (run svc (for_of rows sync_profile
                            {| successCount := 0; errorCount := 0;
                               errors := [] |}) s2) = Returns st /\
     run svc syncAllUsersAppMetadata s =
       {| completion :=
            Returns {| success := true;
                       message := "Synced app_metadata for "
                                  ++ Number_toString (successCount st)
                                  ++ " users. "
                                  ++ Number_toString (errorCount st)
                                  ++ " errors.";
                       error := None |};
          trace := Connected true (Resolved cl)
                   :: Called profiles_select_id_role (Resolved reply)
                   :: trace (run svc (for_of rows sync_profile
                                        {| successCount := 0; errorCount := 0;
                                           errors := [] |}) s2);
          final := final (run svc (for_of rows sync_profile
                                     {| successCount := 0; errorCount := 0;
                                        errors := [] |}) s2) |}).
Proof.
  destruct (connect svc s true) as [[cl|e] s1] eqn:Hc.
  2: { left. exists e, s1. split; [reflexivity|].
       apply run_sync_connect_rejected; assumption. }
  destruct (respond svc s1 profiles_select_id_role) as [[reply|e] s2] eqn:Hr.
  2: { right; left. exists cl, s1, e, s2.
       do 2 (split; [first [reflexivity | eassumption]|]).
       eapply run_sync_read_rejected; eassumption. }
  destruct (Reply.error reply) as [err|] eqn:Herr.
  { right; right; left. exists cl, s1, reply, err, s2.
    do 3 (split; [first [reflexivity | eassumption]|]).
    eapply run_sync_read_error; eassumption. }
  destruct (Reply.data reply) as [[|profile rest]|] eqn:Hdata.
  - right; right; right; left. exists cl, s1, reply, s2.
    do 3 (split; [first [reflexivity | eassumption]|]).
    split; [right; assumption|].
    eapply run_sync_empty; eauto.
  - right; right; right; right.
    destruct (run_sync_loop svc s cl s1 reply s2 _ Hc Hr Herr Hdata)
      as (st & Hst & Hrun); [discriminate|].
    exists cl, s1, reply, s2, (profile :: rest), st.
    do 4 (split; [first [reflexivity | eassumption]|]).
    split; [discriminate|]. split; assumption.
  - right; right; right; left. exists cl, s1, reply, s2.
    do 3 (split; [first [reflexivity | eassumption]|]).
    split; [left; assumption|].
    eapply run_sync_empty; eauto.
Qed.

Lemma logs_of_calls tr :
  (forall ev, In ev tr -> exists c o, ev = Called c o) -> logs tr = [].
Proof.
  induction tr as [|ev rest IH]; intros H; [reflexivity|].
  destruct (H ev (or_introl eq_refl)) as (c & o & ->). cbn.
  apply IH. intros ev' Hin. apply H. right; exact Hin.
Qed.

Lemma sync_loop_calls rows st s ev :
  In ev (trace (run svc (for_of rows sync_profile st) s)) ->
  exists c o, ev = Called c o.
Proof.
  intros Hin. apply sync_loop_trace in Hin. destruct Hin as (p & o & ->).
  eauto.
Qed.

Lemma run_sync_profile_errors st profile s :
  exists st1,
    completion (run svc (sync_profile st profile) s) = Returns st1 /\
    errors st1 =
      (errors st
       ++ failure_lines (trace (run svc (sync_profile st profile) s)))%list.
Proof.
  unfold sync_profile, await. cbn [bind try_catch run].
  destruct (respond svc s _) as [[reply|e] s1]; cbn.
  - destruct (Reply.error reply) as [err|] eqn:Herr; cbn; rewrite ?Herr;
      eexists; (split; [reflexivity|]); cbn; rewrite ?app_nil_r; reflexivity.
  - eexists; (split; [reflexivity|]); reflexivity.
Qed.

Lemma failure_lines_app tr1 tr2 :
  failure_lines (tr1 ++ tr2) = (failure_lines tr1 ++ failure_lines tr2)%list.
Proof.
  induction tr1 as [|ev rest IH]; [reflexivity|].
  destruct ev as [b o|c o|l]; cbn; try exact IH.
  destruct c; try exact IH.
  destruct o as [reply|e]; [destruct (Reply.error reply)|]; cbn;
    rewrite ?IH; reflexivity.
Qed.

Lemma failure_lines_cons ev tr :
  failure_lines (ev :: tr) = (failure_lines [ev] ++ failure_lines tr)%list.
Proof. exact (failure_lines_app [ev] tr). Qed.

End Cases.

Ltac sync_cases svc s :=
  destruct (run_sync_cases svc s)
    as [(e & s1 & Hc & Hrun)
       |[(cl & s1 & e & s2 & Hc & Hr & Hrun)
        |[(cl & s1 & reply & err & s2 & Hc & Hr & Herr & Hrun)
         |[(cl & s1 & reply & s2 & Hc & Hr & Herr & Hdata & Hrun)
          |(cl & s1 & reply & s2 & rows & st & Hc & Hr & Herr & Hdata & Hne
            & Hst & Hrun)]]]].

Ltac unfold_actions :=
  unfold perform, changeUserEmail, sendPasswordReset,
    requestReauthentication, inviteUser, sendMagicLink, deleteUser,
    updateUserAppMetadata.

(** X1: on every return path of every action the [error] member is present
    exactly when [success] is false. *)
Theorem success_iff_no_error {St : Type} (svc : Service St) env a s :
  exists r,
    completion (run svc (perform env a) s) = Returns r /\
    if success r then error r = None else exists d, error r = Some d.
Proof.
  destruct a.
  1-7: unfold_actions; execute svc; eexists; (split; [reflexivity|]); cbn;
       eauto.
  cbn [perform]. sync_cases svc s; rewrite Hrun; eexists;
    (split; [reflexivity|]); cbn; eauto.
Qed.

(** X2: every action starts by asking for the service-role client
    ([createClient(true)]) and asks for a client exactly once. *)
Theorem client_built_once_first {St : Type} (svc : Service St) env a s :
  exists o rest,
    trace (run svc (perform env a) s) = Connected true o :: rest /\
    forall b o', ~ In (Connected b o') rest.
Proof.
  destruct a.
  1-7: unfold_actions; execute svc; do 2 eexists; (split; [reflexivity|]);
       cbn; intros b o' H; intuition discriminate.
  cbn [perform]. sync_cases svc s; rewrite Hrun; do 2 eexists;
    (split; [reflexivity|]); cbn; intros b o' H; try (intuition discriminate).
  destruct H as [H|H]; [discriminate|].
  apply sync_loop_calls in H. destruct H as (c & o & H). discriminate.
Qed.

(** X3: the calls an action issues, in order, are determined by the
    service's answers: none when the client is refused; otherwise the primary
    call, followed, only when that call resolves without an error, by the
    profile mirror write ([changeUserEmail]) or by one metadata update per
    returned row ([syncAllUsersAppMetadata]), and by nothing for the other
    actions. *)
Theorem calls_issued {St : Type} (svc : Service St) env a s :
  calls (trace (run svc (perform env a) s)) =
  match connect svc s true with
  | (Rejected _, _) => []
  | (Resolved _, s1) =>
      primary env a ::
      match fst (respond svc s1 (primary env a)) with
      | Resolved reply => follow_ups a reply
      | Rejected _ => []
      end
  end.
Proof.
  destruct a.
  1-7: unfold_actions; unfold follow_ups; execute svc; reflexivity.
  cbn [perform primary]. sync_cases svc s; rewrite Hrun, Hc; try rewrite Hr;
    cbn [trace calls fst]; unfold follow_ups; try rewrite Herr;
    try reflexivity.
  - destruct Hdata as [-> | ->]; reflexivity.
  - rewrite Hdata.
    destruct (run_for_of_sync svc rows
                {| successCount := 0; errorCount := 0; errors := [] |} s2)
      as (st' & _ & Hcalls & _).
    rewrite Hcalls. reflexivity.
Qed.

(** X4: a delete request is only ever issued by [deleteUser], and only for
    the user id it was given: no other action deletes an identity. *)
Theorem only_deleteUser_deletes {St : Type} (svc : Service St) env a s userId :
  In (auth_admin_deleteUser userId) (calls (trace (run svc (perform env a) s))) ->
  a = DeleteUser userId.
Proof.
  destruct a.
  1-7: unfold_actions; execute svc; intros H;
       repeat (destruct H as [H|H]; [try discriminate H|]);
       try contradiction; injection H as <-; reflexivity.
  cbn [perform]. sync_cases svc s; rewrite Hrun; cbn [trace calls];
    try (cbn; intros H; intuition discriminate).
  destruct (run_for_of_sync svc rows
              {| successCount := 0; errorCount := 0; errors := [] |} s2)
    as (st' & _ & Hcalls & _).
  rewrite Hcalls. intros [H|H]; [discriminate|].
  apply in_map_iff in H. destruct H as (row & H & _). discriminate.
Qed.

Lemma only_deleteUser_deletes_witness :
  In (auth_admin_deleteUser "u1")
     (calls (trace (run answering (perform None (DeleteUser "u1")) []))) /\
  DeleteUser "u1" = DeleteUser "u1".
Proof.
  split; [left; reflexivity|].
  exact (only_deleteUser_deletes answering None (DeleteUser "u1") [] "u1"
           (or_introl eq_refl)).
Defined.

(** X5: a request that lets the identity provider create an identity (an
    invitation, or a one-time-passcode sign-in with the create-user flag set)
    is only ever issued by [inviteUser] and [sendMagicLink]. *)
Theorem identities_created_only_on_request
  {St : Type} (svc : Service St) env a s c :
  In c (calls (trace (run svc (perform env a) s))) ->
  creates_identity c = true ->
  match a with
  | InviteUser _ _ | SendMagicLink _ => True
  | _ => False
  end.
Proof.
  destruct a; try exact (fun _ _ => I).
  1-5: unfold_actions; execute svc; intros H Hc';
       repeat (destruct H as [<-|H]; [try discriminate Hc'|]);
       contradiction.
  cbn [perform]. sync_cases svc s; rewrite Hrun; cbn [trace calls];
    try (cbn; intros H Hc'; repeat (destruct H as [<-|H];
           [try discriminate Hc'|]); contradiction).
  destruct (run_for_of_sync svc rows
              {| successCount := 0; errorCount := 0; errors := [] |} s2)
    as (st' & _ & Hcalls & _).
  rewrite Hcalls. intros [<-|H] Hc'; [discriminate|].
  apply in_map_iff in H. destruct H as (row & <- & _). discriminate.
Qed.

Lemma identities_created_only_on_request_witness :
  In (auth_signInWithOtp "user@example.com"
        {| shouldCreateUser := true;
           emailRedirectTo := "http://localhost:3000/dashboard" |})
     (calls (trace (run answering
                      (perform None (SendMagicLink "user@example.com")) []))) /\
  True.
Proof.
  split; [left; reflexivity|].
  exact (identities_created_only_on_request answering None
           (SendMagicLink "user@example.com") []
           (auth_signInWithOtp "user@example.com"
              {| shouldCreateUser := true;
                 emailRedirectTo := "http://localhost:3000/dashboard" |})
           (or_introl eq_refl) eq_refl).
Defined.

(** X6: when the identity provider has accepted the new email and the mirror
    write to the profile table throws (instead of reporting an error),
    [changeUserEmail] returns [success = false] with its "unexpected error"
    message and the exception text, although the email update was issued and
    accepted. *)
Theorem changeUserEmail_mirror_throw_fails_after_update
  {St : Type} (svc : Service St) userId newEmail s cl s1 reply s2 e s3 :
  connect svc s true = (Resolved cl, s1) ->
  respond svc s1 (auth_admin_updateUserById userId (AttrEmail newEmail))
    = (Resolved reply, s2) ->
  Reply.error reply = None ->
  respond svc s2 (profiles_update_email_eq_id newEmail userId)
    = (Rejected e, s3) ->
  completion (run svc (changeUserEmail userId newEmail) s) =
    Returns {| success := false;
               message := "An unexpected error occurred while changing the email";
               error := Some (Err.message e) |} /\
  calls (trace (run svc (changeUserEmail userId newEmail) s)) =
    [auth_admin_updateUserById userId (AttrEmail newEmail);
     profiles_update_email_eq_id newEmail userId] /\
  final (run svc (changeUserEmail userId newEmail) s) = s3.
Proof.
  intros Hc Hr Herr Hm. unfold changeUserEmail. cbn. rewrite Hc. cbn.
  rewrite Hr. cbn. rewrite Herr. cbn. rewrite Hm. cbn.
  repeat split.
Qed.

Lemma changeUserEmail_mirror_throw_fails_after_update_witness :
  respond answering [Rejected fetch_failed]
    (profiles_update_email_eq_id "new@example.com" "u1")
    = (Rejected fetch_failed, []) /\
  completion (run answering (changeUserEmail "u1" "new@example.com")
                mirror_throw_script) =
    Returns {| success := false;
               message := "An unexpected error occurred while changing the email";
               error := Some "fetch failed" |}.
Proof.
  split; [reflexivity|].
  exact (proj1 (changeUserEmail_mirror_throw_fails_after_update answering
                  "u1" "new@example.com" mirror_throw_script a_client
                  mirror_throw_script ok_reply [Rejected fetch_failed]
                  fetch_failed [] eq_refl eq_refl eq_refl eq_refl)).
Defined.

(** X7: after a successful non-empty read, when no update failed the message
    of [syncAllUsersAppMetadata] reports as many users as there are rows and
    0 errors; when every update failed it reports 0 users and as many errors
    as there are rows. *)
Theorem sync_uniform_outcome_message
  {St : Type} (svc : Service St) s cl s1 reply s2 rows :
  connect svc s true = (Resolved cl, s1) ->
  respond svc s1 profiles_select_id_role = (Resolved reply, s2) ->
  Reply.error reply = None ->
  Reply.data reply = Some rows ->
  rows <> [] ->
  (count_updates true (trace (run svc syncAllUsersAppMetadata s)) = 0 ->
   completion (run svc syncAllUsersAppMetadata s) =
     Returns {| success := true;
                message := "Synced app_metadata for "
                           ++ Number_toString (length rows)
                           ++ " users. 0 errors.";
                error := None |}) /\
  (count_updates false (trace (run svc syncAllUsersAppMetadata s)) = 0 ->
   completion (run svc syncAllUsersAppMetadata s) =
     Returns {| success := true;
                message := "Synced app_metadata for 0 users. "
                           ++ Number_toString (length rows)
                           ++ " errors.";
                error := None |}).
Proof.
  intros Hc Hr Herr Hdata Hne.
  destruct (run_sync_loop svc s cl s1 reply s2 rows Hc Hr Herr Hdata Hne)
    as (st & Hst & Hrun).
  destruct (run_for_of_sync svc rows
              {| successCount := 0; errorCount := 0; errors := [] |} s2)
    as (st' & Hst' & _ & Hs & He & _ & Hsum).
  rewrite Hst in Hst'. injection Hst' as <-.
  rewrite Hrun. cbn [completion trace count_updates]. cbn in Hs, He.
  split; intros H0; rewrite H0 in *.
  - replace (errorCount st) with 0 by lia.
    replace (successCount st) with (length rows) by lia. reflexivity.
  - replace (successCount st) with 0 by lia.
    replace (errorCount st) with (length rows) by lia. reflexivity.
Qed.

Lemma sync_uniform_outcome_message_witness :
  count_updates true
    (trace (run answering syncAllUsersAppMetadata full_sync_script)) = 0 /\
  completion (run answering syncAllUsersAppMetadata full_sync_script) =
    Returns {| success := true;
               message := "Synced app_metadata for 2 users. 0 errors.";
               error := None |}.
Proof.
  split; [reflexivity|].
  exact (proj1 (sync_uniform_outcome_message answering full_sync_script
                  a_client full_sync_script (rows_reply [row_a; row_b])
                  [Resolved ok_reply; Resolved ok_reply] [row_a; row_b]
                  eq_refl eq_refl eq_refl eq_refl
                  (fun H => eq_ind [row_a; row_b]
                              (fun l => match l with [] => False | _ => True end)
                              I [] H))
           eq_refl).
Defined.

(** X8: once the read has succeeded, [syncAllUsersAppMetadata] writes nothing
    to the console: per-user failures are counted but neither logged nor
    returned. *)
Theorem sync_row_failures_are_not_logged
  {St : Type} (svc : Service St) s client t1 answer t2 :
  connect svc s true = (Resolved client, t1) ->
  respond svc t1 profiles_select_id_role = (Resolved answer, t2) ->
  Reply.error answer = None ->
  logs (trace (run svc syncAllUsersAppMetadata s)) = [].
Proof.
  intros Hc0 Hr0 Herr0.
  sync_cases svc s; rewrite Hrun; try congruence; try reflexivity.
  cbn [trace logs]. apply logs_of_calls. intros ev. apply sync_loop_calls.
Qed.

Lemma sync_row_failures_are_not_logged_witness :
  count_updates true
    (trace (run answering syncAllUsersAppMetadata partial_sync_script)) = 1 /\
  logs (trace (run answering syncAllUsersAppMetadata partial_sync_script)) = [].
Proof.
  split; [reflexivity|].
  exact (sync_row_failures_are_not_logged answering partial_sync_script
           a_client partial_sync_script (rows_reply [row_a; row_b])
           [Resolved (error_reply "User not found"); Resolved ok_reply]
           eq_refl eq_refl eq_refl).
Defined.

Lemma sync_loop_has_no_mirror_write {St : Type} (svc : Service St) tr :
  (forall ev, In ev tr -> exists profile o, ev = Called (metadata_update profile) o) ->
  reported_mirror_error tr = None.
Proof.
  induction tr as [|ev rest IH]; intros H; [reflexivity|].
  destruct (H ev (or_introl eq_refl)) as (profile & o & ->). cbn.
  apply IH. intros ev' Hin. apply H. right; exact Hin.
Qed.

(** X9: a failing action writes exactly one console entry, a
    [console.error] carrying the error object its last exchange with the
    service ended in, whose message it returns.  A succeeding action writes
    to the console exactly when a profile mirror write reported an error
    (which only [changeUserEmail] can meet): then it writes one
    [console.error] with that error followed by one [console.warn], and
    otherwise nothing. *)
Theorem failures_logged_once {St : Type} (svc : Service St) env a s :
  exists r,
    completion (run svc (perform env a) s) = Returns r /\
    if success r
    then logs (trace (run svc (perform env a) s)) =
         match reported_mirror_error (trace (run svc (perform env a) s)) with
         | Some profileError =>
             [console_error "Error updating profile email:" profileError;
              console_warn
                "Profile email update failed, but auth email was updated successfully"]
         | None => []
         end
    else exists label e ev,
           logs (trace (run svc (perform env a) s)) = [console_error label e] /\
           last_exchange (trace (run svc (perform env a) s)) = Some ev /\
           fault ev = Some e /\
           error r = Some (Err.message e).
Proof.
  destruct a.
  1-7: unfold_actions; execute svc; try congruence; eexists;
       (split; [reflexivity|]); cbn; rewrite ?Herror, ?Herror0;
       first [ reflexivity
             | do 3 eexists; split; [reflexivity|];
               split; [reflexivity|]; cbn; rewrite ?Herror, ?Herror0;
               split; reflexivity ].
  cbn [perform]. sync_cases svc s; rewrite Hrun; eexists;
    (split; [reflexivity|]); cbn [success trace logs error];
    try (do 3 eexists; split; [reflexivity|]; split; [reflexivity|];
         cbn; rewrite ?Herr; split; reflexivity);
    try reflexivity.
  cbn [reported_mirror_error].
  rewrite (sync_loop_has_no_mirror_write svc _ (sync_loop_trace svc rows _ s2)).
  apply logs_of_calls. intros ev. apply sync_loop_calls.
Qed.

(** X10: the site URL used for redirects is the value of
    NEXT_PUBLIC_SITE_URL when that is set and non-empty, and
    http://localhost:3000 when it is unset or empty, so it is never empty;
    and every request that carries a redirect target carries that site URL
    followed by the path of its kind: /auth/reset-password for a password
    reset, /dashboard for a one-time-passcode sign-in, /auth/callback for an
    invitation. *)
Theorem redirects_are_site_urls {St : Type} (svc : Service St) env a s :
  (forall url, env = Some url -> url <> "" -> siteUrl env = url) /\
  (env = None \/ env = Some "" -> siteUrl env = "http://localhost:3000") /\
  siteUrl env <> "" /\
  forall c,
    In c (calls (trace (run svc (perform env a) s))) ->
    redirects_to (siteUrl env) c.
Proof.
  split; [|split; [|split]].
  - intros url -> Hne. destruct url as [|ch url]; [contradiction|reflexivity].
  - intros [-> | ->]; reflexivity.
  - destruct env as [[|ch url]|]; cbn; discriminate.
  - intros c. destruct a.
    1-7: unfold_actions; generalize (siteUrl env); intros base;
         execute svc; intros H;
         repeat (destruct H as [<-|H]; [cbn; auto|]);
         contradiction.
    cbn [perform]. sync_cases svc s; rewrite Hrun; cbn [trace calls];
      try (cbn; intros H; repeat (destruct H as [<-|H]; [exact I|]);
           contradiction).
    destruct (run_for_of_sync svc rows
                {| successCount := 0; errorCount := 0; errors := [] |} s2)
      as (st' & _ & Hcalls & _).
    rewrite Hcalls. intros [<-|H]; [exact I|].
    apply in_map_iff in H. destruct H as (row & <- & _). exact I.
Qed.

Lemma redirects_are_site_urls_witness :
  "https://cms.example.org" <> "" /\
  siteUrl (Some "https://cms.example.org") = "https://cms.example.org" /\
  In (auth_resetPasswordForEmail "user@example.com"
        "https://cms.example.org/auth/reset-password")
     (calls (trace (run answering
                      (perform (Some "https://cms.example.org")
                         (SendPasswordReset "user@example.com")) []))) /\
  redirects_to (siteUrl (Some "https://cms.example.org"))
    (auth_resetPasswordForEmail "user@example.com"
       "https://cms.example.org/auth/reset-password").
Proof.
  split; [discriminate|].
  split.
  - exact (proj1 (redirects_are_site_urls answering
                    (Some "https://cms.example.org")
                    (SendPasswordReset "user@example.com") [])
             "https://cms.example.org" eq_refl
             (fun H => eq_ind "https://cms.example.org"
                         (fun t => match t with
                                   | EmptyString => False
                                   | String _ _ => True
                                   end) I "" H)).
  - split; [left; reflexivity|].
    exact (proj2 (proj2 (proj2 (redirects_are_site_urls answering
                                  (Some "https://cms.example.org")
                                  (SendPasswordReset "user@example.com") [])))
             (auth_resetPasswordForEmail "user@example.com"
                "https://cms.example.org/auth/reset-password")
             (or_introl eq_refl)).
Defined.

(** X11: the sync loop's error list grows by exactly one line per failed
    update, in row order: "Error updating user <id>: <message>" for a
    reported error and "Exception updating user <id>: <message>" for a thrown
    one; an update that goes through adds nothing. *)
Theorem sync_loop_collects_failure_lines
  {St : Type} (svc : Service St) rows : forall st s,
  exists st',
    completion (run svc (for_of rows sync_profile st) s) = Returns st' /\
    errors st' =
      (errors st
       ++ failure_lines (trace (run svc (for_of rows sync_profile st) s)))%list /\
    length (failure_lines (trace (run svc (for_of rows sync_profile st) s))) =
      count_updates true (trace (run svc (for_of rows sync_profile st) s)).
Proof.
  induction rows as [|profile rest IH]; intros st s.
  - exists st. cbn. rewrite app_nil_r. auto.
  - cbn [for_of]. rewrite run_bind.
    destruct (run_sync_profile_errors svc st profile s) as (st1 & Hc1 & He1).
    destruct (respond svc s (metadata_update profile)) as [o s1] eqn:Hr.
    destruct (run_sync_profile svc st profile s o s1 Hr)
      as (st1' & Hrun & _).
    rewrite Hrun in Hc1, He1. cbn in Hc1. injection Hc1 as ->.
    rewrite Hrun. unfold and_then. cbn [completion final trace app].
    cbn [trace] in He1.
    destruct (IH st1 s1) as (st' & Hc & He & Hl).
    exists st'. split; [exact Hc|].
    rewrite (failure_lines_cons _ (trace _)), count_updates_cons, length_app.
    rewrite He, He1, Hl.
    rewrite app_assoc. split; [reflexivity|]. f_equal.
    unfold metadata_update.
    destruct o as [reply|e]; cbn [failure_lines failed];
      [destruct (Reply.error reply)|]; reflexivity.
Qed.

(** X12: when the primary call of an action reports an error, the action
    returns [success = false] with its fixed "Failed to ..." message and the
    reported text, and issues no further call: [changeUserEmail] leaves the
    profile table alone and [syncAllUsersAppMetadata] updates no one. *)
Theorem reported_error_stops_the_action
  {St : Type} (svc : Service St) env a s cl s1 reply err s2 :
  connect svc s true = (Resolved cl, s1) ->
  respond svc s1 (primary env a) = (Resolved reply, s2) ->
  Reply.error reply = Some err ->
  completion (run svc (perform env a) s) =
    Returns {| success := false;
               message := failure_message a;
               error := Some (Err.message err) |} /\
  calls (trace (run svc (perform env a) s)) = [primary env a] /\
  final (run svc (perform env a) s) = s2.
Proof.
  intros Hc Hr Herr. destruct a.
  1-7: unfold_actions; cbn in Hr |- *; rewrite Hc; cbn; rewrite Hr; cbn;
       rewrite Herr; repeat split.
  cbn [perform]. cbn in Hr.
  rewrite (run_sync_read_error svc s cl s1 reply err s2 Hc Hr Herr).
  repeat split.
Qed.

Lemma reported_error_stops_the_action_witness :
  respond answering user_not_found_script (primary None (DeleteUser "u1"))
    = (Resolved (error_reply "User not found"), []) /\
  completion (run answering (perform None (DeleteUser "u1"))
                user_not_found_script) =
    Returns {| success := false;
               message := "Failed to delete user account";
               error := Some "User not found" |}.
Proof.
  split; [reflexivity|].
  exact (proj1 (reported_error_stops_the_action answering None
                  (DeleteUser "u1") user_not_found_script a_client
                  user_not_found_script (error_reply "User not found")
                  {| Err.message := "User not found" |} []
                  eq_refl eq_refl eq_refl)).
Defined.
